(** * VibeVoice project engine: timeline, persistence, archiving, stitching

    A shallow embedding of the [vvproject] package (project.py, audio.py,
    engine.py) together with the properties of its specification.

    Conventions of the embedding:
    - Python [int] is [Z]; list positions and lengths are [nat].
    - A Python [dict] whose insertion order is observable (it is written to
      the project document) is an association list with distinct keys.
    - Values that may be stored in a project document are [json] trees.
    - A raised exception is [None] in the [option] monad.  [_archive_chunk]
      never raises: there [None] marks a call on file names that the model
      of the project directory does not cover, and [replace_chunk] is [None]
      on these too.
    - [project.chunks] is a list of mutable [ChunkData] objects; it is modelled
      as a store (a list indexed by position) and every loop that mutates a
      chunk updates the store at the position of that object.  Projects built
      by [load_project] and [add_chunk] hold one distinct object per entry. *)

From Stdlib Require Import ZArith Lia Reals Lra Ascii.
From stdpp Require Import base option list strings gmap pretty.

Local Open Scope Z_scope.
#[local] Set Warnings "-register-all".

(** ** Python built-ins used by the package *)

Module Py.

(** [sorted(xs, key=...)]: a stable sort.  [sorted (x :: l)] inserts [x] in
    front of the first element whose key is not smaller, so that elements with
    equal keys keep their original relative order. *)
Section Sorting.
Context {A : Type} (key : A → Z).

Fixpoint insert_by (x : A) (l : list A) : list A :=
  match l with
  | [] => [x]
  | y :: l' => if key x <=? key y then x :: l else y :: insert_by x l'
  end.

Fixpoint sorted (l : list A) : list A :=
  match l with
  | [] => []
  | x :: l' => insert_by x (sorted l')
  end.

Inductive ascending : list A → Prop :=
| ascending_nil : ascending []
| ascending_one x : ascending [x]
| ascending_cons x y l :
    key x <= key y → ascending (y :: l) → ascending (x :: y :: l).
End Sorting.

(** [round(n / d)] for a float quotient of two integers: round half to even.
    The quotient is taken exactly; a double represents it exactly enough for
    the rounding to agree whenever |n / d| is below 2^43 and |d| <= 1000. *)
Definition round_half_even (n d : Z) : Z :=
  let '(n, d) := if d <? 0 then (- n, - d) else (n, d) in
  let q := n / d in
  let r := n mod d in
  if 2 * r <? d then q
  else if d <? 2 * r then q + 1
  else if Z.even q then q else q + 1.

(** *** Strings: [len], [str.strip], [str.find] *)

(** [str.isspace] on one character (code points below 256). *)
Definition is_space (a : ascii) : bool :=
  let n := nat_of_ascii a in
  ((9 <=? n) && (n <=? 13) || (28 <=? n) && (n <=? 32)
   || (n =? 133) || (n =? 160))%nat.

Fixpoint lstrip (s : string) : string :=
  match s with
  | String a s' => if is_space a then lstrip s' else s
  | EmptyString => EmptyString
  end.

Definition strip (s : string) : string :=
  String.rev (lstrip (String.rev (lstrip s))).

Definition len (s : string) : Z := Z.of_nat (String.length s).

(** [s[n:]] *)
Fixpoint skip (n : nat) (s : string) : string :=
  match n, s with
  | S n', String _ s' => skip n' s'
  | _, _ => s
  end.

(** The lowest position [>= i] at which [sub] occurs, [s] being the text
    from position [i] on; [-1] when there is none. *)
Fixpoint find_in (sub s : string) (i : Z) : Z :=
  if String.prefix sub s then i
  else match s with
       | EmptyString => -1
       | String _ s' => find_in sub s' (i + 1)
       end.

(** [s.find(sub, start)] *)
Definition find (s sub : string) (start : Z) : Z :=
  let start := if start <? 0 then Z.max (start + len s) 0 else start in
  if len s <? start then -1
  else find_in sub (skip (Z.to_nat start) s) start.

(** *** Paths and glob patterns *)

(** [name.rfind('.')], counting positions from [i]. *)
Fixpoint rfind_dot (name : string) (i : nat) : option nat :=
  match name with
  | EmptyString => None
  | String a name' =>
      match rfind_dot name' (S i) with
      | Some j => Some j
      | None => if decide (a = "."%char) then Some i else None
      end
  end.

(** [PurePath.stem] of a path that is a bare file name: the name without
    its last suffix; a leading or a trailing dot starts no suffix. *)
Definition stem (name : string) : string :=
  match rfind_dot name 0 with
  | Some i =>
      if ((0 <? i) && (i <? String.length name - 1))%nat
      then String.substring 0 i name else name
  | None => name
  end.

(** *** Glob patterns

    [Path.glob] with a one-component pattern compares every entry of the
    directory with the pattern, through the regular expression that
    [fnmatch.translate] builds (case-sensitively on POSIX).  The model covers
    the patterns made of literal characters, [?], single [*] and bracket
    expressions that list letters, digits, [_], [.] and spaces. *)
Inductive token : Type :=
| Lit (c : ascii)
| Any
| Star
| Set_ (members : list ascii).

(** A character that stands for itself wherever it is put in a bracket
    expression. *)
Definition set_char (a : ascii) : bool :=
  let n := nat_of_ascii a in
  ((48 <=? n) && (n <=? 57) || (65 <=? n) && (n <=? 90)
   || (97 <=? n) && (n <=? 122) || (n =? 95) || (n =? 46) || (n =? 32))%nat.

(** The tokens of a pattern; [open] holds the members read so far of a
    bracket expression that has not been closed.  [None] for a pattern that
    is not modelled: two stars in a row, a bracket expression that is
    empty, is not closed or holds another character (a negation, a range, a
    bracket). *)
Fixpoint tokens_from (open : option (list ascii)) (pattern : string)
    : option (list token) :=
  match pattern with
  | EmptyString => match open with None => Some [] | Some _ => None end
  | String c pattern' =>
      match open with
      | Some members =>
          if decide (c = "]"%char) then
            match members with
            | [] => None
            | _ => cons (Set_ (rev members)) <$> tokens_from None pattern'
            end
          else if set_char c then tokens_from (Some (c :: members)) pattern'
          else None
      | None =>
          if decide (c = "["%char) then tokens_from (Some []) pattern'
          else if decide (c = "*"%char) then
            if String.prefix "*" pattern' then None
            else cons Star <$> tokens_from None pattern'
          else if decide (c = "?"%char) then cons Any <$> tokens_from None pattern'
          else cons (Lit c) <$> tokens_from None pattern'
      end
  end.

(** Whether a token other than [Star] accepts a character. *)
Definition accepts (t : token) (a : ascii) : bool :=
  match t with
  | Lit c => bool_decide (a = c)
  | Any => true
  | Set_ members => bool_decide (a ∈ members)
  | Star => false
  end.

(** Whether the whole name matches the tokens. *)
Fixpoint match_tokens (ts : list token) (name : string) : bool :=
  match ts with
  | [] => bool_decide (name = EmptyString)
  | Star :: ts' =>
      (fix star (name : string) : bool :=
         match_tokens ts' name
         || match name with
            | EmptyString => false
            | String _ name' => star name'
            end) name
  | t :: ts' =>
      match name with
      | EmptyString => false
      | String a name' => accepts t a && match_tokens ts' name'
      end
  end.

(** [directory.glob(pattern)], the directory holding the entries [names]:
    the entries whose whole name matches; [None] for a pattern that is not
    modelled. *)
Definition glob (pattern : string) (names : gset string) : option (gset string) :=
  ts ← tokens_from None pattern;
  Some (filter (λ name, match_tokens ts name = true) names).


(** [f"{n:03d}"] for [n >= 0]. *)
Definition format_03d (n : Z) : string :=
  let digits := pretty n in
  String.app (String.string_of_list_ascii
                (replicate (3 - String.length digits) "0"%char)) digits.

(** The JSON-representable Python values. *)
Inductive json (F : Type) : Type :=
| JNull
| JBool (b : bool)
| JInt (z : Z)
| JFloat (f : F)
| JStr (s : string)
| JList (l : list (json F))
| JDict (d : list (string * json F)).
Arguments JNull {F}.
Arguments JBool {F} b.
Arguments JInt {F} z.
Arguments JFloat {F} f.
Arguments JStr {F} s.
Arguments JList {F} l.
Arguments JDict {F} d.

(** The float type and the conversions of [int()], [float()], [str()] and
    [dict()] on arguments that are not already of the target type.  They are
    built-ins of the interpreter; the development is parametric in them.
    [float_lit m e] is the float written [m * 10^e] in the source
    ([-16.0] is [float_lit (-16) 0], [0.95] is [float_lit 95 (-2)]). *)
Class Runtime := {
  float : Type;
  int_of_float : float → option Z;
  int_of_str : string → option Z;
  float_of_int : Z → option float;
  float_of_str : string → option float;
  float_lit : Z → Z → float;
  float_nonzero : float → bool;
  str_of_value : json float → string;
  dict_of_value : json float → option (list (string * json float));
}.

Section Conversions.
Context `{Runtime}.

Definition value := json float.
Definition dict := list (string * value).

(** [d.get(k)] *)
Fixpoint get (d : dict) (k : string) : option value :=
  match d with
  | [] => None
  | (k', v) :: d' => if decide (k' = k) then Some v else get d' k
  end.

(** [d.get(k, default)] *)
Definition get_default (d : dict) (k : string) (dflt : value) : value :=
  match get d k with
  | Some v => v
  | None => dflt
  end.

Definition int (v : value) : option Z :=
  match v with
  | JInt z => Some z
  | JBool b => Some (if b then 1 else 0)
  | JFloat f => int_of_float f
  | JStr s => int_of_str s
  | _ => None
  end.

Definition to_float (v : value) : option float :=
  match v with
  | JFloat f => Some f
  | JInt z => float_of_int z
  | JBool b => float_of_int (if b then 1 else 0)
  | JStr s => float_of_str s
  | _ => None
  end.

Definition str (v : value) : string :=
  match v with
  | JStr s => s
  | _ => str_of_value v
  end.

Definition to_dict (v : value) : option dict :=
  match v with
  | JDict d => Some d
  | _ => dict_of_value v
  end.

(** Truthiness of a dict: non-empty. *)
Definition truthy (d : dict) : bool :=
  match d with [] => false | _ => true end.

(** [bool(v)] *)
Definition to_bool (v : value) : bool :=
  match v with
  | JNull => false
  | JBool b => b
  | JInt z => negb (z =? 0)
  | JFloat f => float_nonzero f
  | JStr s => negb (bool_decide (s = ""))
  | JList l => match l with [] => false | _ => true end
  | JDict d => truthy d
  end.

(** [v is None] *)
Definition is_none (v : value) : bool :=
  match v with JNull => true | _ => false end.

(** [d[k] = v]: an existing key keeps its place, a new key goes last. *)
Fixpoint set_item (d : dict) (k : string) (v : value) : dict :=
  match d with
  | [] => [(k, v)]
  | (k', v') :: d' =>
      if decide (k' = k) then (k', v) :: d' else (k', v') :: set_item d' k v
  end.

(** [d.update(other)] *)
Definition update (d other : dict) : dict :=
  fold_left (λ d kv, set_item d kv.1 kv.2) other d.
End Conversions.

End Py.


(** ** project.py: the data model, persistence and the timeline *)

Module Project.
Import Py.

Section WithRuntime.
Context `{Runtime}.

Record ProjectSettings := {
  sample_rate : Z;
  loudness_lufs : float;
  model_name : string;
  attention_type : string;
  global_seed : Z;
  crossfade_ms : Z;
  chunks_dir : string;
  final_mix : string;
  default_params : dict;
}.

Record ChunkData := {
  index : Z;
  filename : string;
  text : string;
  char_start : Z;
  char_end : Z;
  t_start_ms : Z;
  duration_ms : Z;
  seed : Z;
  params : dict;
  speaker_id : Z;
}.

Record ProjectData := {
  root : string;
  settings : ProjectSettings;
  chunks : list ChunkData;
}.

(** Attribute assignments [chunk.t_start_ms = v] and the like. *)
Definition set_t_start_ms (chunk : ChunkData) (v : Z) : ChunkData :=
  {| index := index chunk; filename := filename chunk; text := text chunk;
     char_start := char_start chunk; char_end := char_end chunk;
     t_start_ms := v; duration_ms := duration_ms chunk; seed := seed chunk;
     params := params chunk; speaker_id := speaker_id chunk |}.

Definition set_duration_ms (chunk : ChunkData) (v : Z) : ChunkData :=
  {| index := index chunk; filename := filename chunk; text := text chunk;
     char_start := char_start chunk; char_end := char_end chunk;
     t_start_ms := t_start_ms chunk; duration_ms := v; seed := seed chunk;
     params := params chunk; speaker_id := speaker_id chunk |}.

Definition set_seed (chunk : ChunkData) (v : Z) : ChunkData :=
  {| index := index chunk; filename := filename chunk; text := text chunk;
     char_start := char_start chunk; char_end := char_end chunk;
     t_start_ms := t_start_ms chunk; duration_ms := duration_ms chunk; seed := v;
     params := params chunk; speaker_id := speaker_id chunk |}.

Definition set_params (chunk : ChunkData) (v : dict) : ChunkData :=
  {| index := index chunk; filename := filename chunk; text := text chunk;
     char_start := char_start chunk; char_end := char_end chunk;
     t_start_ms := t_start_ms chunk; duration_ms := duration_ms chunk;
     seed := seed chunk; params := v; speaker_id := speaker_id chunk |}.

Definition set_chunks (project : ProjectData) (v : list ChunkData) : ProjectData :=
  {| root := root project; settings := settings project; chunks := v |}.

Definition set_default_params (s : ProjectSettings) (v : dict) : ProjectSettings :=
  {| sample_rate := sample_rate s; loudness_lufs := loudness_lufs s;
     model_name := model_name s; attention_type := attention_type s;
     global_seed := global_seed s; crossfade_ms := crossfade_ms s;
     chunks_dir := chunks_dir s; final_mix := final_mix s; default_params := v |}.

(** [ProjectSettings.to_dict]: [default_params] is written only when it is
    non-empty. *)
Definition ProjectSettings_to_dict (self : ProjectSettings) : dict :=
  [ ("sample_rate", JInt (sample_rate self));
    ("loudness_lufs", JFloat (loudness_lufs self));
    ("model_name", JStr (model_name self));
    ("attention_type", JStr (attention_type self));
    ("global_seed", JInt (global_seed self));
    ("crossfade_ms", JInt (crossfade_ms self));
    ("chunks_dir", JStr (chunks_dir self));
    ("final_mix", JStr (final_mix self)) ]
  ++ (if truthy (default_params self)
      then [("default_params", JDict (default_params self))] else []).

(** [ProjectSettings.from_dict] *)
Definition ProjectSettings_from_dict (payload : dict) : option ProjectSettings :=
  let default_params := get_default payload "default_params" (JDict []) in
  sample_rate ← int (get_default payload "sample_rate" (JInt 24000));
  loudness_lufs ← to_float (get_default payload "loudness_lufs" (JFloat (float_lit (-16) 0)));
  let model_name := str (get_default payload "model_name" (JStr "VibeVoice-Large")) in
  let attention_type := str (get_default payload "attention_type" (JStr "auto")) in
  global_seed ← int (get_default payload "global_seed" (JInt 42));
  crossfade_ms ← int (get_default payload "crossfade_ms" (JInt 40));
  let chunks_dir := str (get_default payload "chunks_dir" (JStr "chunks")) in
  let final_mix := str (get_default payload "final_mix" (JStr "final_mix.flac")) in
  default_params ← to_dict default_params;
  Some {| sample_rate := sample_rate; loudness_lufs := loudness_lufs;
          model_name := model_name; attention_type := attention_type;
          global_seed := global_seed; crossfade_ms := crossfade_ms;
          chunks_dir := chunks_dir; final_mix := final_mix;
          default_params := default_params |}.

(** [ChunkData.to_dict] *)
Definition ChunkData_to_dict (self : ChunkData) : dict :=
  [ ("index", JInt (index self));
    ("filename", JStr (filename self));
    ("text", JStr (text self));
    ("char_start", JInt (char_start self));
    ("char_end", JInt (char_end self));
    ("t_start_ms", JInt (t_start_ms self));
    ("duration_ms", JInt (duration_ms self));
    ("seed", JInt (seed self));
    ("params", JDict (params self));
    ("speaker_id", JInt (speaker_id self)) ].

(** [ChunkData.from_dict]: ["index"] and ["filename"] are subscripted (a
    missing key raises), every other field has a default. *)
Definition ChunkData_from_dict (payload : dict) : option ChunkData :=
  index ← get payload "index" ≫= int;
  filename ← str <$> get payload "filename";
  let text := str (get_default payload "text" (JStr "")) in
  char_start ← int (get_default payload "char_start" (JInt 0));
  char_end ← int (get_default payload "char_end" (JInt 0));
  t_start_ms ← int (get_default payload "t_start_ms" (JInt 0));
  duration_ms ← int (get_default payload "duration_ms" (JInt 0));
  seed ← int (get_default payload "seed" (JInt 0));
  params ← to_dict (get_default payload "params" (JDict []));
  speaker_id ← int (get_default payload "speaker_id" (JInt 0));
  Some {| index := index; filename := filename; text := text;
          char_start := char_start; char_end := char_end;
          t_start_ms := t_start_ms; duration_ms := duration_ms; seed := seed;
          params := params; speaker_id := speaker_id |}.

(** [ProjectData.to_dict] *)
Definition ProjectData_to_dict (self : ProjectData) : dict :=
  [ ("project", JDict (ProjectSettings_to_dict (settings self)));
    ("chunks", JList ((λ chunk, JDict (ChunkData_to_dict chunk))
                        <$> sorted index (chunks self))) ].

(** [ProjectData.get_chunk]: the first chunk with the given index, with its
    position in [project.chunks] (the identity of the object). *)
Fixpoint get_chunk_from (pos : nat) (l : list ChunkData) (i : Z) : option (nat * ChunkData) :=
  match l with
  | [] => None
  | chunk :: l' => if decide (index chunk = i) then Some (pos, chunk)
                   else get_chunk_from (S pos) l' i
  end.

Definition get_chunk (self : ProjectData) (i : Z) : option (nat * ChunkData) :=
  get_chunk_from 0 (chunks self) i.

(** [ProjectData.add_chunk] *)
Definition add_chunk (self : ProjectData) (chunk : ChunkData) : ProjectData :=
  let existing := get_chunk self (index chunk) in
  let chunks1 := match existing with
                 | Some (pos, _) => delete pos (chunks self)
                 | None => chunks self
                 end in
  set_chunks self (sorted index (chunks1 ++ [chunk])).

(** [save_project]: the document written to [project.json].  [json.dump]
    followed by [json.loads] is the identity on [json] trees. *)
Definition save_project (project : ProjectData) : value :=
  JDict (ProjectData_to_dict project).

(** Iterating over [payload.get("chunks", [])]. *)
Definition entries (v : value) : option (list value) :=
  match v with
  | JList l => Some l
  | JDict [] => Some []
  | JStr "" => Some []
  | _ => None
  end.

(** A value on which [.get] and subscripting by a key work: a dict. *)
Definition mapping (v : value) : option dict :=
  match v with
  | JDict d => Some d
  | _ => None
  end.

(** [load_project]: [parent] is [path.parent], [document] the parsed file. *)
Definition load_project (parent : string) (document : value) : option ProjectData :=
  payload ← mapping document;
  settings ← mapping (get_default payload "project" (JDict [])) ≫= ProjectSettings_from_dict;
  chunks ← entries (get_default payload "chunks" (JList []))
             ≫= mapM (λ entry, mapping entry ≫= ChunkData_from_dict);
  Some {| root := parent; settings := settings; chunks := sorted index chunks |}.

(** [recalculate_timeline].  [sorted(project.chunks, ...)] is a new list of
    the same objects: [sorted_refs] pairs every object with its position in
    the store, and the loop body reads and writes the store there. *)
Definition sorted_refs (store : list ChunkData) : list (nat * ChunkData) :=
  sorted (λ ref, index ref.2) (zip (seq 0 (length store)) store).

Definition timeline_step (crossfade : Z) (st : list ChunkData * Z) (pos : nat)
    : list ChunkData * Z :=
  let '(store, current_start) := st in
  match store !! pos with
  | None => st
  | Some chunk =>
      let chunk := set_t_start_ms chunk (Z.max current_start 0) in
      let current_start := t_start_ms chunk + duration_ms chunk - crossfade in
      (<[pos := chunk]> store, if current_start <? 0 then 0 else current_start)
  end.

Definition recalculate_timeline (project : ProjectData) : ProjectData :=
  let order := (sorted_refs (chunks project)).*1 in
  let st := fold_left (timeline_step (crossfade_ms (settings project))) order
                      (chunks project, 0) in
  set_chunks project st.1.

(** [find_chunk_by_timestamp] *)
Fixpoint first_covering (timestamp_ms : Z) (l : list ChunkData) : option ChunkData :=
  match l with
  | [] => None
  | chunk :: l' =>
      let start := t_start_ms chunk in
      let end_ := start + duration_ms chunk in
      if (start <=? timestamp_ms) && (timestamp_ms <? end_) then Some chunk
      else first_covering timestamp_ms l'
  end.

Definition find_chunk_by_timestamp (project : ProjectData) (timestamp_ms : Z)
    : option ChunkData :=
  match first_covering timestamp_ms (sorted index (chunks project)) with
  | Some chunk => Some chunk
  | None =>
      match last (chunks project) with
      | Some chunk => if t_start_ms chunk <=? timestamp_ms then Some chunk else None
      | None => None
      end
  end.

End WithRuntime.
End Project.


(** ** audio.py: durations, crossfades, time-stretching

    A waveform is a list of samples.  Samples and fade gains are real
    numbers: the float arithmetic of numpy is idealised, lengths and slicing
    are exact. *)

Module Audio.
Import Py.

Definition waveform := list R.

(** [calculate_duration_ms]; a zero sample rate raises. *)
Definition calculate_duration_ms (data : waveform) (sample_rate : Z) : option Z :=
  if decide (length data = 0%nat) then Some 0
  else if decide (sample_rate = 0) then None
  else Some (round_half_even (Z.of_nat (length data) * 1000) sample_rate).

(** [np.linspace(start, stop, num, endpoint=False)] *)
Definition linspace (start stop : R) (num : nat) : list R :=
  (λ i, (start + INR i * ((stop - start) / INR num))%R) <$> seq 0 num.

(** The gain curves of [cosine_crossfade] over [n] overlapping samples. *)
Definition fade (n : nat) : list R := linspace 0 (PI / 2) n.
Definition fade_out (n : nat) : list R := (λ θ, (cos θ ^ 2)%R) <$> fade n.
Definition fade_in (n : nat) : list R := (λ θ, (sin θ ^ 2)%R) <$> fade n.

(** [cosine_crossfade].  The slices [first[-n:]], [first[:-n]] are taken
    with [0 < n <= len(first)], where they are the last [n] samples and all
    but the last [n]. *)
Definition cosine_crossfade (first second : waveform) (crossfade_samples : Z)
    : waveform :=
  if (crossfade_samples <=? 0) || bool_decide (length first = 0%nat)
  then first ++ second
  else
    let crossfade_samples :=
      Z.min crossfade_samples
            (Z.min (Z.of_nat (length first)) (Z.of_nat (length second))) in
    if crossfade_samples =? 0 then first ++ second
    else
      let n := Z.to_nat crossfade_samples in
      let overlap :=
        zip_with Rplus
          (zip_with Rmult (drop (length first - n) first) (fade_out n))
          (zip_with Rmult (take n second) (fade_in n)) in
      let prefix := take (length first - n) first in
      let suffix := drop n second in
      prefix ++ overlap ++ suffix.

(** [stitch_chunks] *)
Definition stitch_chunks (chunk_audios : list waveform) (sample_rate crossfade_ms : Z)
    : waveform :=
  match chunk_audios with
  | [] => []
  | first :: rest =>
      let crossfade_samples := round_half_even (sample_rate * crossfade_ms) 1000 in
      fold_left (λ result chunk, cosine_crossfade result chunk crossfade_samples)
                rest first
  end.

(** The sample count [time_stretch_to_duration] aims at. *)
Definition desired_samples (sample_rate target_duration_ms : Z) : Z :=
  Z.max (round_half_even (target_duration_ms * sample_rate) 1000) 1.

Section Stretch.
(** [librosa.effects.time_stretch(data, rate=rate)], an external routine:
    nothing is assumed about the length of its result. *)
Variable time_stretch : waveform → R → waveform.

(** [time_stretch_to_duration] *)
Definition time_stretch_to_duration (data : waveform) (sample_rate target_duration_ms : Z)
    : option waveform :=
  if (target_duration_ms <=? 0) || bool_decide (length data = 0%nat) then Some data
  else
    current_duration_ms ← calculate_duration_ms data sample_rate;
    if decide (current_duration_ms = 0) then Some data
    else
      let desired_samples := desired_samples sample_rate target_duration_ms in
      let rate := (IZR current_duration_ms / IZR target_duration_ms)%R in
      let stretched := time_stretch data rate in
      let n := Z.to_nat desired_samples in
      if desired_samples <? Z.of_nat (length stretched) then Some (take n stretched)
      else if Z.of_nat (length stretched) <? desired_samples
           then Some (stretched ++ replicate (n - length stretched) 0%R)
           else Some stretched.
End Stretch.

(** *** Loudness *)

Section Loudness.
(** [float(np.mean(np.square(data)))].  The squares and their mean are
    taken in the float type of the array, where the square of a very quiet
    sample underflows to 0, so that the value can be 0 for a waveform that
    is not silent.  It is never negative.  The definitions are parametric
    in this value; the arithmetic after it is idealised over the reals. *)
Variable mean_square : waveform → nonnegreal.

(** The root mean square that [rms_loudness_lufs] starts from. *)
Definition rms (data : waveform) : R :=
  if decide (length data = 0%nat) then 0%R
  else sqrt (mean_square data).

(** [rms_loudness_lufs] *)
Definition rms_loudness_lufs (data : waveform) : R :=
  let rms := rms data in
  if Rle_dec rms 0 then (-80)%R
  else (20 * Rlog 10 (rms + / 10 ^ 12))%R.

(** [np.clip(x, -1.0, 1.0)] on one sample. *)
Definition clip (x : R) : R := Rmin (Rmax x (-1)) 1.

(** [match_loudness] *)
Definition match_loudness (data : waveform) (target_lufs : R) : waveform :=
  let current := rms_loudness_lufs data in
  let gain_db := (target_lufs - current)%R in
  let gain := Rpower 10 (gain_db / 20) in
  let adjusted := (λ x, x * gain)%R <$> data in
  clip <$> adjusted.
End Loudness.

End Audio.


(** ** engine.py: segmentation offsets, archiving, generation, replacement *)

Module Engine.
Import Py Project Audio.

(** The project directory: the chunk audio files and the archived versions,
    each keyed by file name, and the parsed content of [project.json] when
    the file exists.  The record stands for a directory on a case-sensitive
    POSIX file system without links, in which the chunk directory, the
    archive directory [chunks_archive] and [project.json] are three distinct
    entries of the project root, and for files named by a single path
    component: see [layout] and [plain_name] below. *)
Record Disk `{Runtime} := {
  chunk_files : gmap string waveform;
  archive_files : gmap string waveform;
  document : option value;
}.

Section WithRuntime.
Context `{Runtime}.

Record TTSOptions := {
  cfg_scale : float;
  diffusion_steps : Z;
  use_sampling : bool;
  temperature : float;
  top_p : float;
}.

(** [TTSOptions.as_dict] *)
Definition as_dict (self : TTSOptions) : dict :=
  [ ("cfg_scale", JFloat (cfg_scale self));
    ("diffusion_steps", JInt (diffusion_steps self));
    ("use_sampling", JBool (use_sampling self));
    ("temperature", JFloat (temperature self));
    ("top_p", JFloat (top_p self)) ].

(** [write_flac(chunks_directory / filename, audio, ...)] *)
Definition write_flac (name : string) (audio : waveform) (disk : Disk) : Disk :=
  {| chunk_files := <[name := audio]> (chunk_files disk);
     archive_files := archive_files disk;
     document := document disk |}.

(** [save_project(project)] on the disk. *)
Definition save (project : ProjectData) (disk : Disk) : Disk :=
  {| chunk_files := chunk_files disk;
     archive_files := archive_files disk;
     document := Some (save_project project) |}.

(** *** [_chunk_script] *)

(** The position given to a span: the first occurrence at or after the
    cursor, else the first occurrence anywhere, else the cursor. *)
Definition locate (script_text chunk_text : string) (cursor : Z) : Z :=
  let index := find script_text chunk_text cursor in
  let index := if decide (index = -1) then find script_text chunk_text 0 else index in
  if decide (index = -1) then cursor else index.

Definition chunk_script_step (script_text : string)
    (st : list (string * Z * Z) * Z) (raw : string) : list (string * Z * Z) * Z :=
  let '(positions, cursor) := st in
  let chunk_text := strip raw in
  if decide (chunk_text = "") then st
  else
    let start := locate script_text chunk_text cursor in
    let end_ := start + len chunk_text in
    (positions ++ [(chunk_text, start, end_)], end_).

Section Collaborators.
(** [BaseVibeVoiceNode._split_text_into_chunks], the renderer behind
    [ChunkRenderer.render_text], [load_audio] and librosa's time stretch are
    outside the package; the definitions are parametric in them. *)
Variable split_text_into_chunks : string → Z → list string.
Variable render_text :
  ProjectSettings → TTSOptions → string → Z → option dict → waveform.
Variable load_audio : string → Z → option waveform.
Variable time_stretch : waveform → R → waveform.

Definition _chunk_script (script_text : string) (max_words : Z)
    : list (string * Z * Z) :=
  (fold_left (chunk_script_step script_text)
             (split_text_into_chunks script_text max_words) ([], 0)).1.

(** *** [_default_tts_options] *)
Definition _default_tts_options (settings : ProjectSettings) : option TTSOptions :=
  let defaults := default_params settings in
  cfg_scale ← to_float (get_default defaults "cfg_scale" (JFloat (float_lit 13 (-1))));
  diffusion_steps ← int (get_default defaults "diffusion_steps" (JInt 20));
  let use_sampling := to_bool (get_default defaults "use_sampling" (JBool false)) in
  temperature ← to_float (get_default defaults "temperature" (JFloat (float_lit 95 (-2))));
  top_p ← to_float (get_default defaults "top_p" (JFloat (float_lit 95 (-2))));
  Some {| cfg_scale := cfg_scale; diffusion_steps := diffusion_steps;
          use_sampling := use_sampling; temperature := temperature;
          top_p := top_p |}.

(** *** [_archive_chunk] *)

(** A name that, joined to a directory, names an entry of that directory:
    it is not empty, not [.] or [..], and holds neither a path separator
    nor a NUL character. *)
Definition plain_name (name : string) : bool :=
  negb (bool_decide (name = "")) && negb (bool_decide (name = "."))
  && negb (bool_decide (name = ".."))
  && forallb (λ a, negb (bool_decide (a = "/"%char))
                   && negb (bool_decide (a = "000"%char)))
             (String.list_ascii_of_string name).

(** The settings under which the chunk directory is an entry of the project
    root other than the archive directory and [project.json]. *)
Definition layout (settings : ProjectSettings) : bool :=
  plain_name (chunks_dir settings)
  && negb (bool_decide (chunks_dir settings = "chunks_archive"))
  && negb (bool_decide (chunks_dir settings = "project.json")).

(** [archive_dir.glob(f"{stem}__v*.flac")]: the names in the archive
    directory that match the pattern; [None] for a pattern that is not
    modelled. *)
Definition archived_versions (stem : string) (disk : Disk) : option (gset string) :=
  glob (stem +:+ "__v*.flac") (dom (archive_files disk)).

(** [_archive_chunk] never raises.  The outer [None] marks a call that the
    model does not cover: [chunk.filename] is not a plain name (the source
    path would be the chunk directory itself, or a path outside it), the
    settings are outside [layout], or the glob pattern is not modelled.
    Within the model the result is the returned path ([None] when the
    chunk's file does not exist) and the directory afterwards. *)
Definition _archive_chunk (project : ProjectData) (chunk : ChunkData) (disk : Disk)
    : option (option string * Disk) :=
  let source := filename chunk in
  if negb (layout (settings project) && plain_name source) then None
  else
    match chunk_files disk !! source with
    | None => Some (None, disk)
    | Some content =>
        let stem := stem source in
        existing ← archived_versions stem disk;
        let version := (size existing + 1)%nat in
        let destination := stem +:+ "__v" +:+ pretty version +:+ ".flac" in
        Some (Some destination,
              {| chunk_files := delete source (chunk_files disk);
                 archive_files := <[destination := content]> (archive_files disk);
                 document := document disk |})
    end.

(** *** [generate_project] *)

(** The loop over [enumerate(chunk_specs, start=1)], from [idx] on. *)
Fixpoint generate_loop (settings : ProjectSettings) (tts_options : TTSOptions)
    (idx : Z) (chunk_specs : list (string * Z * Z))
    (project : ProjectData) (next_start : Z) (disk : Disk)
    : option (ProjectData * Disk) :=
  match chunk_specs with
  | [] => Some (project, disk)
  | (chunk_text, char_start, char_end) :: chunk_specs' =>
      let seed := global_seed settings + idx - 1 in
      let audio := render_text settings tts_options chunk_text seed None in
      duration_ms ← calculate_duration_ms audio (sample_rate settings);
      let filename := "chunk_" +:+ format_03d idx +:+ ".flac" in
      let disk := write_flac filename audio disk in
      let chunk :=
        {| index := idx; filename := filename; text := chunk_text;
           char_start := char_start; char_end := char_end;
           t_start_ms := next_start; duration_ms := duration_ms; seed := seed;
           params := as_dict tts_options; speaker_id := 0 |} in
      let project := add_chunk project chunk in
      let next_start := t_start_ms chunk + Project.duration_ms chunk
                        - crossfade_ms settings in
      let next_start := if next_start <? 0 then 0 else next_start in
      let disk := save project disk in
      generate_loop settings tts_options (idx + 1) chunk_specs' project next_start disk
  end.

Definition generate_project (script_text project_root : string)
    (settings : ProjectSettings) (tts_options : TTSOptions)
    (max_words_per_chunk : Z) (disk : Disk) : option (ProjectData * Disk) :=
  let settings := set_default_params settings (as_dict tts_options) in
  let project := {| root := project_root; settings := settings; chunks := [] |} in
  let chunk_specs := _chunk_script script_text max_words_per_chunk in
  match chunk_specs with
  | [] => None
  | _ => generate_loop settings tts_options 1 chunk_specs project 0 disk
  end.

(** *** [replace_chunk] *)

(** The rendering or import of the new audio, with the seed and the
    parameters the chunk gets (the [if mode == ...] block). *)
Definition new_audio (project : ProjectData) (chunk : ChunkData)
    (defaults : TTSOptions) (mode : string) (seed : option Z)
    (overrides : option dict) (import_path : option string)
    : option (waveform * ChunkData) :=
  if decide (mode = "tts") then
    let chunk_seed := match seed with Some s => s | None => Project.seed chunk end in
    let audio := render_text (settings project) defaults (text chunk) chunk_seed
                             overrides in
    let params := as_dict defaults in
    let params :=
      match overrides with
      | Some o => if truthy o
                  then update params (filter (λ kv, is_none kv.2 = false) o)
                  else params
      | None => params
      end in
    Some (audio, set_params (set_seed chunk chunk_seed) params)
  else if decide (mode = "import") then
    path ← import_path;
    audio ← load_audio path (sample_rate (settings project));
    let params := set_item (params chunk) "mode" (JStr "import") in
    let chunk := match seed with Some s => set_seed chunk s | None => chunk end in
    Some (audio, set_params chunk params)
  else None.

(** The reconciliation of the duration (the [if timeline_mode == "locked"
    and original_duration > 0] block). *)
Definition reconcile (project : ProjectData) (chunk : ChunkData)
    (timeline_mode : string) (audio : waveform) : option (waveform * ChunkData) :=
  let original_duration := duration_ms chunk in
  new_duration ← calculate_duration_ms audio (sample_rate (settings project));
  if bool_decide (timeline_mode = "locked") && (0 <? original_duration) then
    audio ← time_stretch_to_duration time_stretch audio
              (sample_rate (settings project)) original_duration;
    Some (audio, set_duration_ms chunk original_duration)
  else Some (audio, set_duration_ms chunk new_duration).

Definition replace_chunk (parent : string) (index : Z) (mode timeline_mode : string)
    (seed : option Z) (overrides : option dict) (import_path : option string)
    (disk : Disk) : option (ChunkData * Disk) :=
  project ← document disk ≫= load_project parent;
  '(pos, chunk) ← get_chunk project index;
  '(archived, disk) ← _archive_chunk project chunk disk;
  let target := filename chunk in
  defaults ← _default_tts_options (settings project);
  '(audio, chunk) ← new_audio project chunk defaults mode seed overrides import_path;
  '(audio, chunk) ← reconcile project chunk timeline_mode audio;
  let project := set_chunks project (<[pos := chunk]> (chunks project)) in
  let disk := write_flac target audio disk in
  let project := if decide (timeline_mode = "free")
                 then recalculate_timeline project else project in
  let disk := save project disk in
  chunk ← chunks project !! pos;
  Some (chunk, disk).

End Collaborators.

(** *** [build_final_mix] and [find_chunk] *)

Section Mix.
(** [load_audio] on a chunk file, given the file's name and the samples
    written to it (the file is PCM_16 FLAC, and is resampled when its rate
    differs from the requested one), and the real number a float stands
    for. *)
Variable load_chunk_audio : string → waveform → Z → option waveform.
Variable real_of_float : float → R.
(** The mean of the squares as the float arithmetic computes it (see
    [Audio.rms]). *)
Variable mean_square : waveform → nonnegreal.

(** The body of the loop over [project.chunks]: a chunk whose file is
    missing raises. *)
Definition chunk_audio (project : ProjectData) (disk : Disk) (chunk : ChunkData)
    : option waveform :=
  content ← chunk_files disk !! filename chunk;
  load_chunk_audio (filename chunk) content (sample_rate (settings project)).

(** [build_final_mix]: the result is the waveform written to
    [project.final_mix_path]; the chunk files, the archive and
    [project.json] are only read. *)
Definition build_final_mix (parent : string) (disk : Disk) : option waveform :=
  project ← document disk ≫= load_project parent;
  chunk_audios ← mapM (chunk_audio project disk) (chunks project);
  let combined := stitch_chunks chunk_audios (sample_rate (settings project))
                                (crossfade_ms (settings project)) in
  let normalised := match_loudness mean_square combined
                      (real_of_float (loudness_lufs (settings project))) in
  Some normalised.
End Mix.

(** [find_chunk] *)
Definition find_chunk (parent : string) (timestamp_ms : Z) (disk : Disk)
    : option (option ChunkData) :=
  project ← document disk ≫= load_project parent;
  Some (find_chunk_by_timestamp project timestamp_ms).

End WithRuntime.
End Engine.


(** ** cli/vv-find-chunk.py: the report on the chunk that was found *)

Module Cli.
Import Py.

(** The [text_excerpt] entry of the payload that [main] prints:
    [excerpt[:157] + "..."] when the stripped text has more than 160
    characters. *)
Definition text_excerpt (text : string) : string :=
  let excerpt := strip text in
  if 160 <? len excerpt then String.substring 0 157 excerpt +:+ "..."
  else excerpt.

End Cli.


(** ** A concrete runtime for evaluating the definitions *)

Module Examples.
Import Py Project.

(** Floats as decimal literals [(m, e)] standing for [m * 10^e].  The
    theorems below hold for every runtime; this one only serves to run the
    embedded functions on concrete projects. *)
#[export] Instance decimal_runtime : Runtime := {|
  float := Z * Z;
  int_of_float := λ f, Some (if 0 <=? f.2 then f.1 * 10 ^ f.2
                             else Z.quot f.1 (10 ^ (- f.2)));
  int_of_str := λ _, None;
  float_of_int := λ z, Some (z, 0);
  float_of_str := λ _, None;
  float_lit := λ m e, (m, e);
  float_nonzero := λ f, negb (f.1 =? 0);
  str_of_value := λ _, "";
  dict_of_value := λ _, None;
|}.

Definition example_settings (crossfade : Z) : ProjectSettings :=
  {| sample_rate := 24000; loudness_lufs := float_lit (-16) 0;
     model_name := "VibeVoice-Large"; attention_type := "auto";
     global_seed := 42; crossfade_ms := crossfade;
     chunks_dir := "chunks"; final_mix := "final_mix.flac";
     default_params := [] |}.

(** A chunk with the given index, start and duration. *)
Definition example_chunk (i start duration : Z) : ChunkData :=
  {| index := i; filename := "chunk.flac"; text := "";
     char_start := 0; char_end := 0;
     t_start_ms := start; duration_ms := duration; seed := 0;
     params := []; speaker_id := 0 |}.

Definition example_project (crossfade : Z) (l : list ChunkData) : ProjectData :=
  {| root := "project"; settings := example_settings crossfade; chunks := l |}.

Definition example_options : Engine.TTSOptions :=
  {| Engine.cfg_scale := float_lit 13 (-1); Engine.diffusion_steps := 20;
     Engine.use_sampling := false; Engine.temperature := float_lit 95 (-2);
     Engine.top_p := float_lit 95 (-2) |}.

(** An empty project directory. *)
Definition empty_disk : Engine.Disk :=
  {| Engine.chunk_files := ∅; Engine.archive_files := ∅; Engine.document := None |}.

(** A splitter that cuts the sample script after its first sentence, and a
    renderer that returns 48 silent samples per word character count. *)
Definition example_split (script_text : string) (max_words : Z) : list string :=
  ["Hello world."; "This is a test."].

Definition example_render (settings : ProjectSettings) (options : Engine.TTSOptions)
    (chunk_text : string) (seed : Z) (overrides : option dict) : Audio.waveform :=
  replicate (48 * String.length chunk_text) 0%R.


(** A stretch routine that returns its input. *)
Definition example_stretch (data : Audio.waveform) (rate : R) : Audio.waveform :=
  data.

(** A project directory holding one rendered chunk of the given duration. *)
Definition example_disk (duration : Z) : Engine.Disk :=
  {| Engine.chunk_files := {["chunk.flac" := [0%R]]};
     Engine.archive_files := ∅;
     Engine.document :=
       Some (save_project (example_project 40 [example_chunk 1 0 duration])) |}.

(** A reader that returns the stored samples, and the value of a decimal
    literal. *)
Definition example_read (name : string) (content : Audio.waveform) (sample_rate : Z)
    : option Audio.waveform := Some content.

Definition example_real (f : Z * Z) : R := (IZR f.1 * Rpower 10 (IZR f.2))%R.

(** The mean of the squares in exact arithmetic: a float arithmetic that
    neither rounds nor underflows. *)
Fixpoint sum_squares (data : Audio.waveform) : nonnegreal :=
  match data with
  | [] => mknonnegreal 0 (Rle_refl 0)
  | x :: data' =>
      mknonnegreal (x * x + sum_squares data')
        (Rplus_le_le_0_compat _ _ (Rle_0_sqr x) (cond_nonneg (sum_squares data')))
  end.

Definition example_mean_square (data : Audio.waveform) : nonnegreal :=
  match data with
  | [] => mknonnegreal 0 (Rle_refl 0)
  | _ :: rest =>
      mknonnegreal (sum_squares data / INR (S (length rest)))
        (Rle_mult_inv_pos _ _ (cond_nonneg (sum_squares data))
           (lt_0_INR _ (Nat.lt_0_succ (length rest))))
  end.

(** A float arithmetic in which every square underflows: the computed mean
    of the squares is 0 whatever the samples. *)
Definition example_underflow (data : Audio.waveform) : nonnegreal :=
  mknonnegreal 0 (Rle_refl 0).

End Examples.


(** ** Reference definitions taken from the specification's wording *)

Module Spec.
Import Py Project.

(** The timeline algorithm of the specification, on the durations of the
    chunks in ascending index order:
    [cursor = 0; for chunk: chunk.t_start_ms = max(cursor, 0);
     cursor = chunk.t_start_ms + chunk.duration_ms - crossfade_ms;
     if cursor < 0: cursor = 0]. *)
Fixpoint timeline_starts (crossfade cursor : Z) (durations : list Z) : list Z :=
  match durations with
  | [] => []
  | d :: ds =>
      let t := Z.max cursor 0 in
      let cursor := t + d - crossfade in
      t :: timeline_starts crossfade (if cursor <? 0 then 0 else cursor) ds
  end.

Section LookupSpec.
Context `{Runtime}.

(** The half-open interval [[t_start_ms, t_start_ms + duration_ms)] of a
    chunk contains the timestamp. *)
Definition covers (timestamp_ms : Z) (chunk : ChunkData) : Prop :=
  t_start_ms chunk ≤ timestamp_ms < t_start_ms chunk + duration_ms chunk.

(** The three outcomes of the lookup by timestamp, over the chunks in
    ascending index order ([line]) and the stored list ([project.chunks]):
    the first covering chunk; else the last stored chunk when the timestamp
    is at or beyond its start; else no chunk. *)
Inductive lookup_outcome (project : ProjectData) (timestamp_ms : Z)
    : option ChunkData → Prop :=
| outcome_covering k chunk :
    sorted index (chunks project) !! k = Some chunk →
    covers timestamp_ms chunk →
    (∀ j c, (j < k)%nat → sorted index (chunks project) !! j = Some c →
            ¬ covers timestamp_ms c) →
    lookup_outcome project timestamp_ms (Some chunk)
| outcome_tail chunk :
    Forall (λ c, ¬ covers timestamp_ms c) (chunks project) →
    last (chunks project) = Some chunk →
    t_start_ms chunk ≤ timestamp_ms →
    lookup_outcome project timestamp_ms (Some chunk)
| outcome_none :
    Forall (λ c, ¬ covers timestamp_ms c) (chunks project) →
    (chunks project = [] ∨
     ∃ chunk, last (chunks project) = Some chunk ∧ timestamp_ms < t_start_ms chunk) →
    lookup_outcome project timestamp_ms None.

(** Consecutive chunks leave no gap: each starts no later than the previous
    one ends. *)
Inductive gap_free : list ChunkData → Prop :=
| gap_free_nil : gap_free []
| gap_free_one c : gap_free [c]
| gap_free_cons a b l :
    t_start_ms b ≤ t_start_ms a + duration_ms a →
    gap_free (b :: l) → gap_free (a :: b :: l).
End LookupSpec.

End Spec.


(** * Properties *)

(** ** The stable sort *)

Module PyFacts.
Import Py.

Section Sorting.
Context {A : Type} (key : A → Z).

Lemma insert_by_Permutation x l : insert_by key x l ≡ₚ x :: l.
Proof.
  induction l as [|y l IH]; simpl; [done|].
  destruct (key x <=? key y); [done|].
  rewrite IH. apply Permutation_swap.
Qed.

Lemma sorted_Permutation l : sorted key l ≡ₚ l.
Proof.
  induction l as [|x l IH]; simpl; [done|].
  by rewrite insert_by_Permutation, IH.
Qed.

Lemma sorted_length l : length (sorted key l) = length l.
Proof. apply Permutation_length, sorted_Permutation. Qed.

Lemma insert_by_ascending x l :
  ascending key l → ascending key (insert_by key x l).
Proof.
  induction 1 as [|y|y z l Hyz Hl IH]; simpl.
  - constructor.
  - destruct (Z.leb_spec (key x) (key y)); repeat constructor; lia.
  - destruct (Z.leb_spec (key x) (key y)).
    + repeat constructor; [lia|done|done].
    + simpl in IH. destruct (Z.leb_spec (key x) (key z)).
      * repeat constructor; [lia|lia|done].
      * constructor; done.
Qed.

Lemma sorted_ascending l : ascending key (sorted key l).
Proof.
  induction l; simpl; [constructor|]. by apply insert_by_ascending.
Qed.

(** Sorting an ascending list changes nothing: the sort is stable. *)
Lemma sorted_of_ascending l : ascending key l → sorted key l = l.
Proof.
  induction 1 as [|y|y z l Hyz Hl IH]; simpl; [done..|].
  simpl in IH. rewrite IH. simpl.
  destruct (Z.leb_spec (key y) (key z)); [done|lia].
Qed.

Lemma sorted_idemp l : sorted key (sorted key l) = sorted key l.
Proof. apply sorted_of_ascending, sorted_ascending. Qed.
End Sorting.

(** Sorting commutes with a map that preserves keys. *)
Lemma sorted_fmap {A B} (key1 : A → Z) (key2 : B → Z) (g : A → B) l :
  (∀ x, key2 (g x) = key1 x) →
  sorted key2 (g <$> l) = g <$> sorted key1 l.
Proof.
  intros Hg. induction l as [|x l IH]; [done|].
  rewrite fmap_cons. cbn [sorted]. rewrite IH. clear IH.
  generalize (sorted key1 l) as s.
  induction s as [|y s IH]; [done|].
  rewrite fmap_cons. cbn [insert_by]. rewrite !Hg.
  destruct (key1 x <=? key1 y); [done|]. by rewrite IH, fmap_cons.
Qed.

End PyFacts.


(** ** The timeline: [recalculate_timeline] *)

Module Timeline.
Import Py PyFacts Project.

Section WithRuntime.
Context `{Runtime}.
Implicit Types (store : list ChunkData) (chunk c : ChunkData) (pos p : nat).

(** *** The sorted view of the store *)

Lemma zip_fmap_snd {A B C} (g : B → C) (l : list A) (k : list B) :
  zip l (g <$> k) = prod_map Datatypes.id g <$> zip l k.
Proof. revert k. induction l; intros [|??]; f_equal/=; auto. Qed.

Lemma sorted_refs_positions store :
  (sorted_refs store).*1 ≡ₚ seq 0 (length store).
Proof.
  unfold sorted_refs. rewrite sorted_Permutation.
  rewrite fst_zip; [done|]. by rewrite length_seq.
Qed.

Lemma sorted_refs_values store :
  (sorted_refs store).*2 = sorted index store.
Proof.
  unfold sorted_refs.
  rewrite <- (sorted_fmap (λ ref, index ref.2) index snd) by done.
  rewrite snd_zip; [done|]. by rewrite length_seq.
Qed.

Lemma sorted_refs_lookup store p c :
  (p, c) ∈ sorted_refs store → store !! p = Some c.
Proof.
  unfold sorted_refs. rewrite sorted_Permutation.
  intros [i Hi]%list_elem_of_lookup_1.
  apply lookup_zip_with_Some in Hi as (p' & c' & [= -> ->] & Hp & Hc).
  apply lookup_seq in Hp as [-> _]. done.
Qed.

(** The order of the sorted view depends on the indices only. *)
Lemma sorted_refs_order store1 store2 :
  index <$> store1 = index <$> store2 →
  (sorted_refs store1).*1 = (sorted_refs store2).*1.
Proof.
  intros Hidx.
  assert (∀ store, (sorted_refs store).*1
     = (sorted snd (zip (seq 0 (length (index <$> store))) (index <$> store))).*1)
    as Hkeys.
  { intros store. unfold sorted_refs.
    rewrite zip_fmap_snd, length_fmap.
    rewrite (sorted_fmap (λ ref, index ref.2) snd (prod_map Datatypes.id index)) by done.
    rewrite <- list_fmap_compose. by apply list_fmap_ext. }
  by rewrite !Hkeys, Hidx.
Qed.

Lemma sorted_refs_NoDup store : NoDup (sorted_refs store).*1.
Proof. rewrite sorted_refs_positions. apply NoDup_seq. Qed.

Lemma sorted_refs_bound store :
  Forall (λ p, (p < length store)%nat) (sorted_refs store).*1.
Proof.
  rewrite sorted_refs_positions. apply Forall_forall.
  intros p Hp%elem_of_seq. lia.
Qed.

Lemma sorted_refs_complete store p :
  (p < length store)%nat → p ∈ (sorted_refs store).*1.
Proof. rewrite sorted_refs_positions, elem_of_seq. lia. Qed.

(** *** The loop *)

Lemma timeline_starts_nonneg cf cur ds :
  Forall (λ t, 0 ≤ t) (Spec.timeline_starts cf cur ds).
Proof.
  revert cur. induction ds as [|d ds IH]; intros cur; simpl; constructor.
  - lia.
  - apply IH.
Qed.

Lemma timeline_starts_length cf cur ds :
  length (Spec.timeline_starts cf cur ds) = length ds.
Proof. revert cur. induction ds; intros; simpl; auto. Qed.

(** What the loop leaves in the store: the objects outside [order] are
    untouched, and the [k]-th object of [order] gets the [k]-th start of the
    recurrence over the durations met along [order]. *)
Lemma timeline_fold cf order : ∀ store cur,
  NoDup order → Forall (λ p, (p < length store)%nat) order →
  let store' := (fold_left (timeline_step cf) order (store, cur)).1 in
  let ds := (λ p, from_option duration_ms 0 (store !! p)) <$> order in
  length store' = length store ∧
  (∀ p, p ∉ order → store' !! p = store !! p) ∧
  (∀ k p, order !! k = Some p →
     ∃ c t, store !! p = Some c ∧ Spec.timeline_starts cf cur ds !! k = Some t
            ∧ store' !! p = Some (set_t_start_ms c t)).
Proof.
  induction order as [|p0 order IH]; intros store cur Hnd Hlt; simpl.
  { split; [done|]. split; [done|]. intros k p Hk. by destruct k. }
  apply NoDup_cons in Hnd as [Hp0 Hnd].
  apply Forall_cons in Hlt as [Hlt0 Hlt].
  destruct (lookup_lt_is_Some_2 store p0 Hlt0) as [c0 Hc0].
  rewrite Hc0. simpl.
  set (t0 := Z.max cur 0).
  set (cur1 := if t0 + duration_ms c0 - cf <? 0 then 0
               else t0 + duration_ms c0 - cf).
  set (store1 := <[p0 := set_t_start_ms c0 t0]> store).
  destruct (IH store1 cur1 Hnd) as (Hlen & Hout & Hin).
  { unfold store1. by rewrite length_insert. }
  assert ((λ p, from_option duration_ms 0 (store1 !! p)) <$> order
          = (λ p, from_option duration_ms 0 (store !! p)) <$> order) as Hds.
  { apply list_fmap_ext. intros i p Hp. unfold store1.
    rewrite list_lookup_insert_ne; [done|].
    intros ->. apply Hp0. by eapply list_elem_of_lookup_2. }
  rewrite Hds in Hin. unfold store1 in Hlen. rewrite length_insert in Hlen.
  split; [done|]. split.
  - intros p Hp. apply not_elem_of_cons in Hp as [Hne Hp].
    rewrite Hout by done. unfold store1. by rewrite list_lookup_insert_ne.
  - intros [|k] p Hk; simpl in Hk.
    + injection Hk as <-. exists c0, t0. split; [done|]. split; [done|].
      rewrite Hout by done. unfold store1. by rewrite list_lookup_insert_eq.
    + destruct (Hin k p Hk) as (c & t & Hc & Ht & Hs).
      exists c, t. split; [|done].
      unfold store1 in Hc. rewrite list_lookup_insert_ne in Hc; [done|].
      intros ->. apply Hp0. by eapply list_elem_of_lookup_2.
Qed.

(** The store after [recalculate_timeline]. *)
Local Abbreviation recalculated project := (chunks (recalculate_timeline project)).
#[local] Arguments recalculate_timeline : simpl never.

Lemma recalculated_lookup project :
  let order := (sorted_refs (chunks project)).*1 in
  let ds := (λ p, from_option duration_ms 0 (chunks project !! p)) <$> order in
  let ts := Spec.timeline_starts (crossfade_ms (settings project)) 0 ds in
  length (recalculated project) = length (chunks project) ∧
  ∀ k p, order !! k = Some p →
    ∃ c t, chunks project !! p = Some c ∧ ts !! k = Some t
           ∧ recalculated project !! p = Some (set_t_start_ms c t).
Proof.
  intros order ds ts.
  destruct (timeline_fold (crossfade_ms (settings project)) order
              (chunks project) 0) as (Hlen & _ & Hin).
  { apply sorted_refs_NoDup. }
  { apply sorted_refs_bound. }
  split; [exact Hlen|exact Hin].
Qed.

(** Every object of the store is visited, and only its start changes. *)
Lemma recalculated_pointwise project p c' :
  recalculated project !! p = Some c' →
  ∃ c t, chunks project !! p = Some c ∧ 0 ≤ t ∧ c' = set_t_start_ms c t.
Proof.
  intros Hc'. destruct (recalculated_lookup project) as [Hlen Hin].
  assert (p < length (chunks project))%nat as Hp.
  { rewrite <- Hlen. by eapply lookup_lt_Some. }
  apply sorted_refs_complete, list_elem_of_lookup_1 in Hp as [k Hk].
  destruct (Hin k p Hk) as (c & t & Hc & Ht & Hs).
  exists c, t. split; [done|]. split.
  - eapply Forall_lookup_1; [apply timeline_starts_nonneg|exact Ht].
  - congruence.
Qed.

Lemma recalculated_fields {B} (f : ChunkData → B) project :
  (∀ c t, f (set_t_start_ms c t) = f c) →
  f <$> recalculated project = f <$> chunks project.
Proof.
  intros Hf. apply list_eq. intros p. rewrite !list_lookup_fmap.
  destruct (recalculated project !! p) as [c'|] eqn:Hc'.
  - destruct (recalculated_pointwise _ _ _ Hc') as (c & t & -> & _ & ->).
    simpl. by rewrite Hf.
  - apply lookup_ge_None in Hc'.
    destruct (recalculated_lookup project) as [Hlen _].
    rewrite Hlen in Hc'. apply lookup_ge_None in Hc'. by rewrite Hc'.
Qed.

(** The [k]-th chunk in ascending index order is the object at the [k]-th
    position of the sorted view. *)
Lemma sorted_line_lookup store k :
  sorted index store !! k = (sorted_refs store).*1 !! k ≫= (store !!.).
Proof.
  rewrite <- sorted_refs_values, !list_lookup_fmap.
  destruct (sorted_refs store !! k) as [[p c]|] eqn:Hk; simpl; [|done].
  symmetry. by eapply sorted_refs_lookup, list_elem_of_lookup_2.
Qed.

Lemma recalculated_order project :
  (sorted_refs (recalculated project)).*1 = (sorted_refs (chunks project)).*1.
Proof. apply sorted_refs_order, recalculated_fields. done. Qed.

Lemma recalculated_durations project :
  let order := (sorted_refs (chunks project)).*1 in
  (λ p, from_option duration_ms 0 (recalculated project !! p)) <$> order
  = (λ p, from_option duration_ms 0 (chunks project !! p)) <$> order.
Proof.
  intros order. apply list_fmap_ext. intros k p Hk.
  destruct (recalculated_lookup project) as [_ Hin].
  destruct (Hin k p Hk) as (c & t & Hc & _ & Hs). by rewrite Hs, Hc.
Qed.

(** In ascending index order the starts follow the recurrence of the
    specification over the durations. *)
Lemma recalculated_line project :
  let line := sorted index (recalculated project) in
  t_start_ms <$> line
  = Spec.timeline_starts (crossfade_ms (settings project)) 0 (duration_ms <$> line).
Proof.
  intros line.
  destruct (recalculated_lookup project) as [Hlen Hin].
  set (order := (sorted_refs (chunks project)).*1) in *.
  set (ds := (λ p, from_option duration_ms 0 (chunks project !! p)) <$> order) in *.
  set (ts := Spec.timeline_starts (crossfade_ms (settings project)) 0 ds) in *.
  assert (∀ k, line !! k = order !! k ≫= (recalculated project !!.)) as Hline.
  { intros k. unfold line. by rewrite sorted_line_lookup, recalculated_order. }
  assert (duration_ms <$> line = ds) as Hds.
  { apply list_eq. intros k. unfold ds.
    rewrite !list_lookup_fmap, Hline.
    destruct (order !! k) as [p|] eqn:Hk; [|done].
    destruct (Hin k p Hk) as (c & t & Hc & _ & Hs).
    cbn [mbind option_bind]. rewrite Hs. simpl. by rewrite Hc. }
  rewrite Hds. fold ts. apply list_eq. intros k.
  rewrite list_lookup_fmap, Hline.
  destruct (order !! k) as [p|] eqn:Hk; cbn [mbind option_bind].
  - destruct (Hin k p Hk) as (c & t & _ & Ht & Hs). by rewrite Hs, Ht.
  - symmetry. apply lookup_ge_None. apply lookup_ge_None in Hk.
    unfold ts. rewrite timeline_starts_length. unfold ds.
    by rewrite length_fmap.
Qed.

Lemma recalculate_timeline_unfold project :
  recalculate_timeline project = set_chunks project (recalculated project).
Proof. done. Qed.

(** The first chunk in index order starts at 0. *)
Lemma recalculate_timeline_first_start project c :
  sorted index (recalculated project) !! 0%nat = Some c → t_start_ms c = 0.
Proof.
  intros Hc. pose proof (recalculated_line project) as Hline. cbv zeta in Hline.
  apply (f_equal (λ l, l !! 0%nat)) in Hline.
  rewrite list_lookup_fmap, Hc in Hline.
  destruct (sorted index (recalculated project)) as [|c0 l]; [done|].
  simpl in Hline. injection Hline as ->. lia.
Qed.

(** Each later chunk starts where the previous one ends minus the
    crossfade, clamped at 0. *)
Lemma recalculate_timeline_next_start project k a b :
  sorted index (recalculated project) !! k = Some a →
  sorted index (recalculated project) !! S k = Some b →
  t_start_ms b
  = Z.max (t_start_ms a + duration_ms a - crossfade_ms (settings project)) 0.
Proof.
  pose proof (recalculated_line project) as Hline. cbv zeta in Hline.
  revert Hline. generalize (sorted index (recalculated project)) as line.
  generalize (crossfade_ms (settings project)) as cf.
  intros cf line. generalize 0 at 1 as cur. revert k.
  induction line as [|c line IH]; intros k cur Hline Ha Hb; [done|].
  rewrite !fmap_cons in Hline. cbn [Spec.timeline_starts] in Hline.
  injection Hline as Hc Hline.
  destruct k as [|k]; simpl in Ha, Hb.
  - injection Ha as ->. destruct line as [|c' line]; [done|].
    injection Hb as ->. rewrite !fmap_cons in Hline.
    cbn [Spec.timeline_starts] in Hline. injection Hline as Hb _.
    rewrite Hb, <- Hc.
    destruct (Z.ltb_spec (t_start_ms a + duration_ms a - cf) 0); lia.
  - eapply IH; eauto.
Qed.

(** C1 (as amended): after [recalculate_timeline] every chunk has
    [t_start_ms >= 0]; the durations are exactly the stored ones (the function
    never writes [duration_ms], so they are non-negative precisely when they
    were before); and in ascending index order the starts follow the clamped
    recurrence: the first start is 0 and each next start is
    [max(t_start_ms + duration_ms - crossfade_ms, 0)] of the previous chunk. *)
Theorem recalculate_timeline_nonneg project :
  let line := sorted index (recalculated project) in
  Forall (λ c, 0 ≤ t_start_ms c) (recalculated project)
  ∧ duration_ms <$> recalculated project = duration_ms <$> chunks project
  ∧ t_start_ms <$> line
    = Spec.timeline_starts (crossfade_ms (settings project)) 0 (duration_ms <$> line).
Proof.
  intros line. split; [|split].
  - apply Forall_lookup. intros p c' Hc'.
    destruct (recalculated_pointwise _ _ _ Hc') as (c & t & _ & Ht & ->). done.
  - by apply recalculated_fields.
  - apply recalculated_line.
Qed.

(** C2: [recalculate_timeline] is idempotent: a second run on the result
    changes nothing, so every chunk keeps the start of the first run. *)
Theorem recalculate_timeline_idempotent project :
  recalculate_timeline (recalculate_timeline project) = recalculate_timeline project.
Proof.
  rewrite (recalculate_timeline_unfold (recalculate_timeline project)).
  assert (recalculated (recalculate_timeline project) = recalculated project)
    as ->; [|done].
  destruct (recalculated_lookup project) as [Hlen Hin].
  destruct (recalculated_lookup (recalculate_timeline project)) as [Hlen' Hin'].
  rewrite recalculated_order, recalculated_durations in Hin'.
  change (settings (recalculate_timeline project)) with (settings project) in Hin'.
  apply list_eq. intros p.
  destruct (decide (p < length (chunks project))%nat) as [Hp|Hp].
  - apply sorted_refs_complete, list_elem_of_lookup_1 in Hp as [k Hk].
    destruct (Hin k p Hk) as (c & t & Hc & Ht & Hs).
    destruct (Hin' k p Hk) as (c' & t' & Hc' & Ht' & Hs').
    rewrite Hs', Hs. rewrite Hs in Hc'. rewrite Ht in Ht'.
    by simplify_eq.
  - rewrite !(proj2 (lookup_ge_None _ _)); [done|lia..].
Qed.

(** The starts are a function of the indices, the durations and the
    crossfade alone. *)
Lemma recalculate_timeline_deterministic project1 project2 :
  index <$> chunks project1 = index <$> chunks project2 →
  duration_ms <$> chunks project1 = duration_ms <$> chunks project2 →
  crossfade_ms (settings project1) = crossfade_ms (settings project2) →
  t_start_ms <$> recalculated project1 = t_start_ms <$> recalculated project2.
Proof.
  intros Hidx Hdur Hcf.
  destruct (recalculated_lookup project1) as [Hlen1 Hin1].
  destruct (recalculated_lookup project2) as [Hlen2 Hin2].
  rewrite <- (sorted_refs_order _ _ Hidx), <- Hcf in Hin2.
  assert (length (chunks project1) = length (chunks project2)) as Hlen.
  { by rewrite <- (length_fmap index), Hidx, length_fmap. }
  assert (∀ p, from_option duration_ms 0 (chunks project2 !! p)
               = from_option duration_ms 0 (chunks project1 !! p)) as Hd.
  { intros p. apply (f_equal (λ l, l !! p)) in Hdur.
    rewrite !list_lookup_fmap in Hdur.
    by destruct (chunks project1 !! p), (chunks project2 !! p); simplify_eq/=. }
  rewrite (list_fmap_ext _ _ _ (λ _ p _, Hd p)) in Hin2.
  apply list_eq. intros p. rewrite !list_lookup_fmap.
  destruct (decide (p < length (chunks project1))%nat) as [Hp|Hp].
  - apply sorted_refs_complete, list_elem_of_lookup_1 in Hp as [k Hk].
    destruct (Hin1 k p Hk) as (c1 & t1 & _ & Ht1 & ->).
    destruct (Hin2 k p Hk) as (c2 & t2 & _ & Ht2 & ->).
    simpl. congruence.
  - rewrite !(proj2 (lookup_ge_None _ _)); [done|lia..].
Qed.

End WithRuntime.

(** The third example of the specification: durations [1000, 1000, 1000]
    with a crossfade of 100 ms give the starts [0, 900, 1800], whatever the
    stored starts and the order of the list were. *)
Example recalculate_timeline_three_chunks :
  let project := Examples.example_project 100
    [Examples.example_chunk 3 7 1000; Examples.example_chunk 1 5 1000;
     Examples.example_chunk 2 (-4) 1000] in
  t_start_ms <$> chunks (recalculate_timeline project) = [1800; 0; 900].
Proof. reflexivity. Qed.

(** C1 as stated fails: a stored negative duration (the type is a plain
    [int], and [ChunkData.from_dict] accepts any) is still there after
    [recalculate_timeline], which only assigns [t_start_ms]. *)
Lemma recalculate_timeline_keeps_negative_duration :
  ¬ Forall (λ c, 0 ≤ t_start_ms c ∧ 0 ≤ duration_ms c)
      (chunks (recalculate_timeline
         (Examples.example_project 40 [Examples.example_chunk 1 0 (-5)]))).
Proof. intros Hall. apply Forall_inv in Hall. simpl in Hall. lia. Qed.

End Timeline.


(** ** Lookup by timestamp: [find_chunk_by_timestamp] *)

Module Lookup.
Import Py PyFacts Project Spec.

Section WithRuntime.
Context `{Runtime}.
Implicit Types (chunk c : ChunkData) (l : list ChunkData).

Lemma covers_test timestamp_ms c :
  (t_start_ms c <=? timestamp_ms)
    && (timestamp_ms <? t_start_ms c + duration_ms c) = true
  ↔ covers timestamp_ms c.
Proof. unfold covers. rewrite andb_true_iff, Z.leb_le, Z.ltb_lt. done. Qed.

Lemma first_covering_Some timestamp_ms l c :
  first_covering timestamp_ms l = Some c →
  ∃ k, l !! k = Some c ∧ covers timestamp_ms c
       ∧ ∀ j c', (j < k)%nat → l !! j = Some c' → ¬ covers timestamp_ms c'.
Proof.
  induction l as [|c0 l IH]; simpl; [done|].
  destruct (_ && _) eqn:Htest.
  - intros [= ->]. exists 0%nat. split; [done|]. split.
    + by apply covers_test.
    + intros j c' Hj. lia.
  - intros (k & Hk & Hc & Hbefore)%IH. exists (S k).
    split; [done|]. split; [done|].
    intros [|j] c' Hj Hc'; simpl in Hc'.
    + injection Hc' as <-. rewrite <- covers_test. congruence.
    + apply (Hbefore j); [lia|done].
Qed.

Lemma first_covering_None timestamp_ms l :
  first_covering timestamp_ms l = None →
  Forall (λ c, ¬ covers timestamp_ms c) l.
Proof.
  induction l as [|c0 l IH]; simpl; [constructor|].
  destruct (_ && _) eqn:Htest; [done|].
  intros Hl. constructor; [|by apply IH].
  rewrite <- covers_test. congruence.
Qed.

(** C8 (as amended): the lookup returns the first chunk in ascending index
    order whose half-open interval contains the timestamp; when no interval
    contains it, the last chunk of the stored list if the timestamp is at or
    beyond that chunk's start; and no chunk exactly when no interval contains
    the timestamp and the project is empty or the timestamp precedes the
    start of the last stored chunk. *)
Theorem find_chunk_by_timestamp_outcome project timestamp_ms :
  lookup_outcome project timestamp_ms (find_chunk_by_timestamp project timestamp_ms).
Proof.
  unfold find_chunk_by_timestamp.
  destruct (first_covering _ _) as [c|] eqn:Hfirst.
  - apply first_covering_Some in Hfirst as (k & Hk & Hc & Hbefore).
    by eapply outcome_covering.
  - apply first_covering_None in Hfirst.
    rewrite sorted_Permutation in Hfirst.
    destruct (last (chunks project)) as [c|] eqn:Hlast.
    + destruct (Z.leb_spec (t_start_ms c) timestamp_ms).
      * by eapply outcome_tail.
      * apply outcome_none; [done|]. right. by exists c.
    + apply outcome_none; [done|]. left. by apply last_None.
Qed.

(** On a stored list in ascending index order without gaps the lookup fails
    only for an empty project or a timestamp before the first start. *)
Lemma find_chunk_by_timestamp_gap_free project timestamp_ms :
  ascending index (chunks project) →
  gap_free (chunks project) →
  find_chunk_by_timestamp project timestamp_ms = None →
  chunks project = [] ∨
  ∃ first, head (chunks project) = Some first ∧ timestamp_ms < t_start_ms first.
Proof.
  intros Hasc Hgap Hnone. unfold find_chunk_by_timestamp in Hnone.
  destruct (first_covering _ _) as [c|] eqn:Hfirst; [done|].
  apply first_covering_None in Hfirst as Hno.
  rewrite sorted_Permutation in Hno. clear Hfirst Hasc.
  destruct (last (chunks project)) as [cl|] eqn:Hlast;
    [|left; by apply last_None].
  destruct (Z.leb_spec (t_start_ms cl) timestamp_ms) as [?|Hts]; [done|].
  clear Hnone. right.
  revert Hno Hlast. induction Hgap as [|c|a b l Hab Hgap IH]; intros Hno Hlast.
  - done.
  - injection Hlast as <-. by exists c.
  - exists a. split; [done|].
    destruct (Z.lt_ge_cases timestamp_ms (t_start_ms a)) as [?|Ha]; [done|].
    apply Forall_cons in Hno as [Hna Hno]. unfold covers in Hna.
    destruct IH as (first & [= <-] & Hfirst); [done|done|lia].
Qed.
End WithRuntime.

(** The lookup examples of the specification: chunks [(0, 1000)] and
    [(900, 1000)]. *)
Example find_chunk_by_timestamp_examples :
  let project := Examples.example_project 100
    [Examples.example_chunk 1 0 1000; Examples.example_chunk 2 900 1000] in
  index <$> find_chunk_by_timestamp project 500 = Some 1
  ∧ index <$> find_chunk_by_timestamp project 1500 = Some 2
  ∧ index <$> find_chunk_by_timestamp project 5000 = Some 2
  ∧ find_chunk_by_timestamp project (-1) = None.
Proof. done. Qed.

(** C8 as stated fails on a timeline with a gap: 300 ms lies after the
    first chunk's start, in no interval and before the last start. *)
Lemma find_chunk_by_timestamp_gap :
  let project := Examples.example_project 0
    [Examples.example_chunk 1 0 100; Examples.example_chunk 2 500 100] in
  find_chunk_by_timestamp project 300 = None
  ∧ chunks project ≠ []
  ∧ t_start_ms <$> head (sorted index (chunks project)) = Some 0.
Proof. done. Qed.

End Lookup.


(** ** Segmentation offsets: [_chunk_script] *)

Module Segmentation.
Import Py Engine.

Lemma find_in_range sub s i :
  0 ≤ i → find_in sub s i = -1 ∨ i ≤ find_in sub s i.
Proof.
  revert i. induction s as [|a s IH]; intros i Hi; cbn [find_in].
  - destruct (String.prefix sub ""); [right; lia|by left].
  - destruct (String.prefix sub (String a s)); [right; lia|].
    destruct (IH (i + 1)) as [->| ?]; [lia|by left|right; lia].
Qed.

(** [s.find(sub, start)] with [start >= 0] is [-1] or a position at or after
    [start]. *)
Lemma find_range s sub start :
  0 ≤ start → find s sub start = -1 ∨ start ≤ find s sub start.
Proof.
  intros Hstart. unfold find.
  destruct (Z.ltb_spec start 0); [lia|].
  destruct (len s <? start); [by left|]. by apply find_in_range.
Qed.

(** Where a span is put, the cursor being non-negative: at or after the
    cursor, unless its text occurs only before the cursor. *)
Lemma locate_cases script_text chunk_text cursor :
  0 ≤ cursor →
  cursor ≤ locate script_text chunk_text cursor
  ∨ (find script_text chunk_text cursor = -1
     ∧ find script_text chunk_text 0 = locate script_text chunk_text cursor
     ∧ 0 ≤ locate script_text chunk_text cursor < cursor).
Proof.
  intros Hcursor. unfold locate.
  pose proof (find_range script_text chunk_text cursor Hcursor) as Hafter.
  pose proof (find_range script_text chunk_text 0 (Z.le_refl 0)) as Hany.
  repeat case_decide; lia.
Qed.

Section Loop.
Variable script_text : string.

(** The end of the last span, which is where the cursor stands. *)
Local Abbreviation last_end positions :=
  (from_option (λ span : string * Z * Z, span.2) 0 (last positions)).

(** The state of the loop: the cursor is the end of the last span, every
    span ends [len(text)] after its start, and every span but the first was
    located from the end of its predecessor. *)
Local Abbreviation loop_invariant st :=
  (st.2 = last_end st.1 ∧ 0 ≤ st.2
   ∧ Forall (λ span : string * Z * Z,
               0 ≤ span.1.2 ∧ span.2 = span.1.2 + len span.1.1) st.1
   ∧ ∀ k a b, st.1 !! k = Some a → st.1 !! S k = Some b →
       b.1.2 = locate script_text b.1.1 a.2).

Lemma len_nonneg s : 0 ≤ len s.
Proof. unfold len. lia. Qed.

Lemma locate_nonneg chunk_text cursor :
  0 ≤ cursor → 0 ≤ locate script_text chunk_text cursor.
Proof.
  intros Hcursor.
  destruct (locate_cases script_text chunk_text cursor Hcursor); lia.
Qed.

Lemma chunk_script_step_invariant st raw :
  loop_invariant st → loop_invariant (chunk_script_step script_text st raw).
Proof.
  destruct st as [positions cursor]. unfold chunk_script_step.
  destruct (decide (strip raw = "")) as [|Hne]; [done|].
  simpl. intros (Hcur & Hpos & Hall & Hnext).
  pose proof (locate_nonneg (strip raw) cursor Hpos) as Hloc.
  pose proof (len_nonneg (strip raw)) as Hlen.
  split_and!.
  - by rewrite last_snoc.
  - lia.
  - apply Forall_app. split; [done|]. repeat constructor; simpl; lia.
  - intros k a b Ha Hb.
    destruct (decide (S k < length positions)%nat) as [Hk|Hk].
    + rewrite lookup_app_l in Ha by lia. rewrite lookup_app_l in Hb by lia.
      by eapply Hnext.
    + assert (S k = length positions) as Hlast.
      { apply lookup_lt_Some in Hb. rewrite length_app in Hb. simpl in Hb. lia. }
      rewrite lookup_app_l in Ha by lia.
      rewrite Hlast, list_lookup_middle in Hb by done. injection Hb as <-.
      rewrite last_lookup in Hcur.
      replace (Init.Nat.pred (length positions)) with k in Hcur by lia.
      rewrite Ha in Hcur. simpl in *. by subst cursor.
Qed.

Lemma chunk_script_loop_invariant raw_chunks st :
  loop_invariant st →
  loop_invariant (fold_left (chunk_script_step script_text) raw_chunks st).
Proof.
  revert st. induction raw_chunks as [|raw raw_chunks IH]; intros st Hst; [done|].
  simpl. by apply IH, chunk_script_step_invariant.
Qed.
End Loop.

End Segmentation.


(** ** Generation: [add_chunk] and the seeds of [generate_project] *)

Module Generation.
Import Py PyFacts Project Audio Engine.

Section WithRuntime.
Context `{Runtime}.
Implicit Types (chunk c : ChunkData) (l : list ChunkData).

Lemma ascending_snoc {A} (key : A → Z) (l : list A) (x : A) :
  ascending key l → Forall (λ a, key a ≤ key x) l → ascending key (l ++ [x]).
Proof.
  induction 1 as [|y|y z l Hyz Hl IH]; intros Hall; simpl.
  - constructor.
  - apply Forall_inv in Hall. by repeat constructor.
  - constructor; [done|]. apply IH. by eapply Forall_inv_tail.
Qed.

Lemma get_chunk_from_None pos l i :
  Forall (λ c, index c ≠ i) l → get_chunk_from pos l i = None.
Proof.
  intros Hall. revert pos. induction Hall as [|c l Hc Hall IH]; intros pos; simpl.
  - done.
  - by rewrite decide_False.
Qed.

(** [get_chunk] returns a chunk of the list, the one at the position it
    reports, and that chunk has the index asked for. *)
Lemma get_chunk_from_Some pos0 l i pos c :
  get_chunk_from pos0 l i = Some (pos, c) →
  (pos0 ≤ pos)%nat ∧ l !! (pos - pos0)%nat = Some c ∧ index c = i.
Proof.
  revert pos0. induction l as [|c0 l IH]; intros pos0; simpl; [done|].
  case_decide as Hc0.
  - intros [= <- <-]. by rewrite Nat.sub_diag.
  - intros (Hle & Hl & Hi)%IH. split; [lia|]. split; [|done].
    replace (pos - pos0)%nat with (S (pos - S pos0)) by lia. done.
Qed.

(** Adding a chunk whose index is larger than all others appends it. *)
Lemma add_chunk_fresh project chunk :
  ascending index (chunks project) →
  Forall (λ c, index c < index chunk) (chunks project) →
  chunks (add_chunk project chunk) = chunks project ++ [chunk].
Proof.
  intros Hasc Hall. unfold add_chunk, get_chunk.
  rewrite get_chunk_from_None.
  - simpl. apply sorted_of_ascending, ascending_snoc; [done|].
    eapply Forall_impl; [done|]. simpl. lia.
  - eapply Forall_impl; [done|]. simpl. lia.
Qed.

(** [add_chunk] keeps any property shared by the stored chunks and the new
    one; the stored list stays in ascending index order. *)
Lemma add_chunk_Forall (P : ChunkData → Prop) project chunk :
  Forall P (chunks project) → P chunk → Forall P (chunks (add_chunk project chunk)).
Proof.
  intros Hall Hc. unfold add_chunk. simpl. rewrite sorted_Permutation.
  apply Forall_app. split; [|by constructor].
  destruct (get_chunk project (index chunk)) as [[pos c]|]; [|done].
  by apply Forall_delete.
Qed.

Lemma add_chunk_ascending project chunk :
  ascending index (chunks (add_chunk project chunk)).
Proof. unfold add_chunk. simpl. apply sorted_ascending. Qed.

Section Collaborators.
Variable split_text_into_chunks : string → Z → list string.
Variable render_text :
  ProjectSettings → TTSOptions → string → Z → option dict → waveform.

Local Abbreviation numbered n := ((λ k : nat, Z.of_nat k + 1) <$> seq 0 n).

Lemma numbered_lookup l n k c :
  index <$> l = numbered n → l !! k = Some c → index c = Z.of_nat k + 1 ∧ (k < n)%nat.
Proof.
  intros Hidx Hk. apply (f_equal (λ l : list Z, l !! k)) in Hidx.
  rewrite !list_lookup_fmap, Hk in Hidx. simpl in Hidx.
  destruct (seq 0 n !! k) as [k'|] eqn:Hseq; [|done].
  apply lookup_seq in Hseq as [-> ?]. simpl in Hidx. by injection Hidx as ->.
Qed.

Lemma numbered_ascending l n : index <$> l = numbered n → ascending index l.
Proof.
  intros Hidx.
  assert (∀ k a b, l !! k = Some a → l !! S k = Some b → index a ≤ index b) as Hstep.
  { intros k a b Ha Hb.
    destruct (numbered_lookup _ _ _ _ Hidx Ha) as [-> _].
    destruct (numbered_lookup _ _ _ _ Hidx Hb) as [-> _]. lia. }
  clear Hidx. induction l as [|a [|b l] IH]; [constructor..|].
  constructor.
  - by apply (Hstep 0%nat).
  - apply IH. intros k. apply (Hstep (S k)).
Qed.

(** The loop numbers the chunks 1, 2, ... in list order and gives the chunk
    numbered [i] the seed [global_seed + i - 1]. *)
Lemma generate_loop_chunks settings tts_options chunk_specs :
  ∀ n project next_start disk project' disk',
  index <$> chunks project = numbered n →
  Forall (λ c, seed c = global_seed settings + index c - 1) (chunks project) →
  generate_loop render_text settings tts_options (Z.of_nat n + 1) chunk_specs
                project next_start disk = Some (project', disk') →
  index <$> chunks project' = numbered (n + length chunk_specs)
  ∧ Forall (λ c, seed c = global_seed settings + index c - 1) (chunks project').
Proof.
  induction chunk_specs as [|[[chunk_text char_start] char_end] chunk_specs IH];
    intros n project next_start disk project' disk' Hidx Hseed; simpl.
  { intros [= <- <-]. by rewrite Nat.add_0_r. }
  destruct (calculate_duration_ms _ _) as [duration|]; simpl; [|done].
  set (chunk := {| index := Z.of_nat n + 1 |}).
  intros Hloop.
  replace (Z.of_nat n + 1 + 1) with (Z.of_nat (S n) + 1) in Hloop by lia.
  apply IH in Hloop.
  - by replace (n + S (length chunk_specs))%nat
      with (S n + length chunk_specs)%nat by lia.
  - rewrite add_chunk_fresh.
    + rewrite fmap_app, Hidx, seq_S, fmap_app. done.
    + by eapply numbered_ascending.
    + apply Forall_lookup. intros k c Hk.
      destruct (numbered_lookup _ _ _ _ Hidx Hk) as [-> ?]. simpl. lia.
  - apply add_chunk_Forall; [done|]. simpl. lia.
Qed.

(** C10: in a project produced by [generate_project] the chunk at list
    position [k] has the 1-based index [k + 1], and its render seed is
    [global_seed + index - 1]. *)
Theorem generate_project_seeds script_text project_root settings tts_options
    max_words_per_chunk disk project disk' k chunk :
  generate_project split_text_into_chunks render_text script_text project_root
    settings tts_options max_words_per_chunk disk = Some (project, disk') →
  chunks project !! k = Some chunk →
  index chunk = Z.of_nat k + 1
  ∧ seed chunk = global_seed settings + index chunk - 1.
Proof.
  unfold generate_project. intros Hgen Hk.
  destruct (_chunk_script _ _ _) as [|spec chunk_specs] eqn:Hspecs; [done|].
  apply (generate_loop_chunks _ _ _ 0%nat) in Hgen as [Hidx Hseed];
    [|done|constructor].
  destruct (numbered_lookup _ _ _ _ Hidx Hk) as [Hi _].
  split; [done|]. by apply (proj1 (Forall_lookup _ _) Hseed k).
Qed.

End Collaborators.
End WithRuntime.

(** A run of [generate_project] on the sample script with the global seed
    42: the second chunk has index 2 and seed 43. *)
Lemma generate_project_seeds_witness :
  ∃ project disk' chunk,
    generate_project Examples.example_split Examples.example_render
      "Hello world. This is a test." "project" (Examples.example_settings 40)
      Examples.example_options 80 Examples.empty_disk = Some (project, disk')
    ∧ chunks project !! 1%nat = Some chunk
    ∧ index chunk = 2 ∧ seed chunk = 42 + index chunk - 1.
Proof.
  eexists _, _, _.
  split; [vm_compute; reflexivity|]. split; [reflexivity|].
  eapply (generate_project_seeds Examples.example_split Examples.example_render
            "Hello world. This is a test." "project" (Examples.example_settings 40)
            Examples.example_options 80 Examples.empty_disk _ _ 1%nat);
    [vm_compute; reflexivity|reflexivity].
Defined.

End Generation.


(** ** Archiving: glob patterns and [_archive_chunk] *)

Module Archive.
Import Py Project Audio Engine.

(** *** Glob patterns *)


Lemma string_app_cons a s t : String a s +:+ t = String a (s +:+ t).
Proof. done. Qed.

(** The tokens of a text without metacharacters are its characters. *)
Local Abbreviation literal s := (Lit <$> String.list_ascii_of_string s).





(** The name [_archive_chunk] gives to version [n] of a stem. *)
Local Abbreviation versioned stem n := (stem +:+ "__v" +:+ pretty n +:+ ".flac").

(** The tokens of [{stem}__v*.flac] for a stem without metacharacters. *)
Local Abbreviation version_tokens stem :=
  (literal stem ++ literal "__v" ++ [Star] ++ literal ".flac").






(** *** The archive directory *)

Section WithRuntime.
Context `{Runtime}.

(** The versions 1..k of a stem. *)
Local Abbreviation versions_upto stem k :=
  (list_to_set ((λ n : nat, versioned stem n) <$> seq 1 k) : gset string).




(** The calls that the model covers. *)
Lemma archive_chunk_covered project chunk disk result :
  _archive_chunk project chunk disk = Some result →
  layout (settings project) = true ∧ plain_name (filename chunk) = true.
Proof.
  unfold _archive_chunk.
  destruct (layout (settings project) && plain_name (filename chunk)) eqn:Hok;
    [|done].
  intros _. by apply andb_true_iff.
Qed.

Lemma archive_chunk_missing project chunk disk :
  layout (settings project) = true → plain_name (filename chunk) = true →
  chunk_files disk !! filename chunk = None →
  _archive_chunk project chunk disk = Some (None, disk).
Proof.
  intros Hlayout Hplain Hnone. unfold _archive_chunk.
  by rewrite Hlayout, Hplain, Hnone.
Qed.

Lemma archive_chunk_moves project chunk disk content existing :
  layout (settings project) = true → plain_name (filename chunk) = true →
  chunk_files disk !! filename chunk = Some content →
  archived_versions (stem (filename chunk)) disk = Some existing →
  _archive_chunk project chunk disk
  = Some (Some (versioned (stem (filename chunk)) (size existing + 1)%nat),
          {| chunk_files := delete (filename chunk) (chunk_files disk);
             archive_files :=
               <[versioned (stem (filename chunk)) (size existing + 1)%nat
                 := content]> (archive_files disk);
             document := document disk |}).
Proof.
  intros Hlayout Hplain Hsome Hexisting. unfold _archive_chunk.
  by rewrite Hlayout, Hplain, Hsome, Hexisting.
Qed.


End WithRuntime.
End Archive.


(** ** Crossfades: [cosine_crossfade] and [stitch_chunks] *)

Module Stitching.
Import Py Audio.

Lemma linspace_length start stop n : length (linspace start stop n) = n.
Proof. unfold linspace. by rewrite length_fmap, length_seq. Qed.

Lemma fade_out_length n : length (fade_out n) = n.
Proof. unfold fade_out, fade. by rewrite length_fmap, linspace_length. Qed.

Lemma fade_in_length n : length (fade_in n) = n.
Proof. unfold fade_in, fade. by rewrite length_fmap, linspace_length. Qed.

(** Plain concatenation when there is nothing to overlap. *)
Lemma cosine_crossfade_concat first second crossfade_samples :
  crossfade_samples ≤ 0 ∨ first = [] →
  cosine_crossfade first second crossfade_samples = first ++ second.
Proof.
  intros Hcase. unfold cosine_crossfade.
  destruct (Z.leb_spec crossfade_samples 0) as [Hle|Hgt]; [done|].
  destruct Hcase as [Hle| ->]; [lia|]. done.
Qed.

(** C4: the crossfaded result is as long as both inputs together minus the
    overlap, which is the requested number of samples clamped to the lengths
    of the two inputs; without overlap the result is the concatenation. *)
Theorem cosine_crossfade_length first second crossfade_samples :
  0 ≤ crossfade_samples →
  Z.of_nat (length (cosine_crossfade first second crossfade_samples))
  = Z.of_nat (length first) + Z.of_nat (length second)
    - Z.min crossfade_samples
            (Z.min (Z.of_nat (length first)) (Z.of_nat (length second)))
  ∧ (crossfade_samples ≤ 0 ∨ first = [] →
     cosine_crossfade first second crossfade_samples = first ++ second).
Proof.
  intros Hnonneg. split; [|apply cosine_crossfade_concat].
  unfold cosine_crossfade.
  destruct (Z.leb_spec crossfade_samples 0) as [Hle|Hgt]; simpl.
  { rewrite length_app. lia. }
  case_bool_decide as Hfirst; simpl.
  { rewrite length_app. lia. }
  set (n := Z.min crossfade_samples
                  (Z.min (Z.of_nat (length first)) (Z.of_nat (length second)))).
  destruct (Z.eqb_spec n 0) as [Hzero|Hpos].
  { rewrite length_app. lia. }
  rewrite !length_app, !length_zip_with, length_take, !length_drop,
    !length_take, fade_out_length, fade_in_length.
  lia.
Qed.

(** A 40 ms crossfade at 24 kHz asks for 960 samples; inputs of 3 and 2
    samples overlap in 2. *)
Lemma cosine_crossfade_length_witness :
  0 ≤ 960
  ∧ Z.of_nat (length (cosine_crossfade [1%R; 2%R; 3%R] [4%R; 5%R] 960))
    = 3 + 2 - Z.min 960 (Z.min 3 2).
Proof.
  split; [lia|].
  apply (cosine_crossfade_length [1%R; 2%R; 3%R] [4%R; 5%R] 960). lia.
Defined.

(** Stitching two waveforms is one crossfade over
    [round(sample_rate * crossfade_ms / 1000)] samples. *)
Lemma stitch_chunks_pair first second sample_rate crossfade_ms :
  stitch_chunks [first; second] sample_rate crossfade_ms
  = cosine_crossfade first second
      (round_half_even (sample_rate * crossfade_ms) 1000).
Proof. done. Qed.

Lemma stitch_chunks_empty sample_rate crossfade_ms :
  stitch_chunks [] sample_rate crossfade_ms = [].
Proof. done. Qed.

(** *** The gain curves *)

(** C5 (as amended): over an overlap of any length the two gain curves,
    [cos²] and [sin²] of the same angle, add up to 1 at every sample (it is
    the gains, not their squares, that sum to one). *)
Theorem fade_gains_sum n :
  zip_with Rplus (fade_out n) (fade_in n) = replicate n 1%R.
Proof.
  assert (∀ angles : list R,
            zip_with Rplus ((λ θ, cos θ ^ 2) <$> angles) ((λ θ, sin θ ^ 2) <$> angles)
            = replicate (length angles) 1)%R as Hsum.
  { induction angles as [|θ angles IH]; [done|].
    rewrite !fmap_cons. cbn [zip_with length replicate]. rewrite IH. f_equal.
    replace (cos θ ^ 2 + sin θ ^ 2)%R with (Rsqr (sin θ) + Rsqr (cos θ))%R
      by (unfold Rsqr; ring).
    apply sin2_cos2. }
  unfold fade_out, fade_in. rewrite Hsum. unfold fade.
  by rewrite linspace_length.
Qed.

(** C5 as stated fails: half way through an overlap of two samples the
    angle is [π/4], both gains are 1/2, and their squares add up to 1/2. *)
Lemma fade_squares_at_quarter_pi :
  ∃ gain_out gain_in : R,
    fade_out 2 !! 1%nat = Some gain_out ∧ fade_in 2 !! 1%nat = Some gain_in
    ∧ (gain_out ^ 2 + gain_in ^ 2 = 1 / 2)%R.
Proof.
  assert (fade 2 = [0; PI / 4])%R as Hfade.
  { unfold fade, linspace. simpl. f_equal; [lra|]. f_equal. lra. }
  exists (cos (PI / 4) ^ 2)%R, (sin (PI / 4) ^ 2)%R.
  unfold fade_out, fade_in. rewrite Hfade.
  split; [done|]. split; [done|].
  rewrite cos_PI4, sin_PI4.
  assert (sqrt 2 * sqrt 2 = 2)%R as Hsqrt by (apply sqrt_def; lra).
  assert (sqrt 2 ≠ 0)%R as Hne by (intros Hz; rewrite Hz in Hsqrt; lra).
  replace ((1 / sqrt 2) ^ 2)%R with (1 / (sqrt 2 * sqrt 2))%R by (by field).
  rewrite Hsqrt. lra.
Qed.

End Stitching.


(** ** Persistence: [save_project] and [load_project] *)

Module Persistence.
Import Py PyFacts Project.

Section WithRuntime.
Context `{Runtime}.

(** Reading back what [to_dict] wrote gives the same object. *)
Lemma settings_from_to_dict (s : ProjectSettings) :
  ProjectSettings_from_dict (ProjectSettings_to_dict s) = Some s.
Proof. destruct s as [? ? ? ? ? ? ? ? [|[k v] params]]; reflexivity. Qed.

Lemma chunk_from_to_dict (c : ChunkData) :
  ChunkData_from_dict (ChunkData_to_dict c) = Some c.
Proof. by destruct c. Qed.

(** Loading a saved project gives its settings and its chunks in ascending
    index order. *)
Lemma load_save parent project :
  load_project parent (save_project project)
  = Some {| root := parent; settings := settings project;
            chunks := sorted index (chunks project) |}.
Proof.
  unfold load_project, save_project.
  set (payload := ProjectData_to_dict project).
  cbn [mapping mbind option_bind].
  assert (get_default payload "project" (JDict [])
          = JDict (ProjectSettings_to_dict (settings project))) as -> by done.
  assert (get_default payload "chunks" (JList [])
          = JList ((λ chunk, JDict (ChunkData_to_dict chunk))
                     <$> sorted index (chunks project))) as -> by done.
  cbn [mapping entries mbind option_bind].
  rewrite settings_from_to_dict. cbn [mbind option_bind].
  rewrite (mapM_fmap_Some _ _ (sorted index (chunks project))).
  - cbn [mbind option_bind]. by rewrite sorted_idemp.
  - intros c. apply chunk_from_to_dict.
Qed.

(** The settings and the chunk every omitted optional field defaults to. *)
Local Abbreviation default_settings :=
  {| sample_rate := 24000; loudness_lufs := float_lit (-16) 0;
     model_name := "VibeVoice-Large"; attention_type := "auto";
     global_seed := 42; crossfade_ms := 40;
     chunks_dir := "chunks"; final_mix := "final_mix.flac";
     default_params := [] |}.

Local Abbreviation default_chunk i name :=
  {| index := i; filename := name; text := "";
     char_start := 0; char_end := 0; t_start_ms := 0; duration_ms := 0;
     seed := 0; params := []; speaker_id := 0 |}.


(** A field that is absent reads as its default, whatever else the
    document holds. *)
Lemma get_default_missing (payload : dict) key dflt :
  get payload key = None → get_default payload key dflt = dflt.
Proof. intros Hnone. unfold get_default. by rewrite Hnone. Qed.

Lemma get_default_present (payload : dict) key dflt v :
  get payload key = Some v → get_default payload key dflt = v.
Proof. intros Hsome. unfold get_default. by rewrite Hsome. Qed.

End WithRuntime.
End Persistence.


(** ** Time-stretching: [time_stretch_to_duration] *)

Module Stretching.
Import Py Project Audio Engine.

Section Stretch.
Variable time_stretch : waveform → R → waveform.

Lemma desired_samples_positive sample_rate target_duration_ms :
  1 ≤ desired_samples sample_rate target_duration_ms.
Proof. unfold desired_samples. lia. Qed.

(** The stretch is skipped for an empty waveform and for one shorter than
    half a millisecond: the input comes back as it is. *)
Lemma time_stretch_to_duration_skipped data sample_rate target_duration_ms :
  data = [] ∨ calculate_duration_ms data sample_rate = Some 0 →
  time_stretch_to_duration time_stretch data sample_rate target_duration_ms
  = Some data.
Proof.
  intros Hcase. unfold time_stretch_to_duration.
  destruct (target_duration_ms <=? 0); [done|]. simpl.
  case_bool_decide as Hlen; [done|].
  destruct Hcase as [->|Hzero]; [done|].
  by rewrite Hzero.
Qed.

(** Otherwise the result is cut or padded to the target sample count,
    whatever length the stretch routine returned. *)
Lemma time_stretch_to_duration_exact data sample_rate target_duration_ms current :
  0 < target_duration_ms →
  data ≠ [] →
  calculate_duration_ms data sample_rate = Some current →
  current ≠ 0 →
  ∃ stretched,
    time_stretch_to_duration time_stretch data sample_rate target_duration_ms
    = Some stretched
    ∧ Z.of_nat (length stretched) = desired_samples sample_rate target_duration_ms.
Proof.
  intros Htarget Hdata Hcurrent Hnonzero. unfold time_stretch_to_duration.
  destruct (Z.leb_spec target_duration_ms 0) as [?|_]; [lia|]. simpl.
  case_bool_decide as Hlen; [by destruct data|].
  rewrite Hcurrent. simpl. rewrite decide_False by done.
  pose proof (desired_samples_positive sample_rate target_duration_ms) as Hpos.
  set (desired := desired_samples sample_rate target_duration_ms) in *.
  set (out := time_stretch data _).
  destruct (Z.ltb_spec desired (Z.of_nat (length out))) as [Hlong|Hnot_long].
  - eexists. split; [done|]. rewrite length_take. lia.
  - destruct (Z.ltb_spec (Z.of_nat (length out)) desired) as [Hshort|Hnot_short].
    + eexists. split; [done|]. rewrite length_app, length_replicate. lia.
    + eexists. split; [done|]. lia.
Qed.
End Stretch.

Section WithRuntime.
Context `{Runtime}.

Section Collaborators.
Variable render_text :
  ProjectSettings → TTSOptions → string → Z → option dict → waveform.
Variable load_audio : string → Z → option waveform.
Variable time_stretch : waveform → R → waveform.


End Collaborators.
End WithRuntime.

End Stretching.


(** ** Further properties of audio.py *)

Module AudioFacts.
Import Py Audio.

(** Rounding to the nearest integer: the result is within half a unit. *)
Lemma round_half_even_near n d :
  0 < d → 2 * Z.abs (n - round_half_even n d * d) ≤ d.
Proof.
  intros Hd. unfold round_half_even.
  destruct (Z.ltb_spec d 0) as [?|_]; [lia|].
  pose proof (Z.div_mod n d) as Hdiv.
  pose proof (Z.mod_pos_bound n d Hd) as Hmod.
  destruct (Z.ltb_spec (2 * (n mod d)) d);
    [|destruct (Z.ltb_spec d (2 * (n mod d))); [|destruct (Z.even (n / d))]];
    nia.
Qed.

(** The duration of a waveform: 0 for no samples, an error for a sample
    rate of 0, and otherwise, for a positive rate, the number of milliseconds
    nearest to [len / sample_rate] seconds, which is never negative. *)
Theorem calculate_duration_ms_nearest data sample_rate :
  calculate_duration_ms [] sample_rate = Some 0
  ∧ (data ≠ [] → calculate_duration_ms data 0 = None)
  ∧ (0 < sample_rate →
     ∃ ms, calculate_duration_ms data sample_rate = Some ms ∧ 0 ≤ ms
           ∧ 2 * Z.abs (Z.of_nat (length data) * 1000 - ms * sample_rate)
             ≤ sample_rate).
Proof.
  split; [done|]. split.
  - intros Hdata. unfold calculate_duration_ms.
    rewrite decide_False by (by destruct data). done.
  - intros Hrate. unfold calculate_duration_ms.
    destruct (decide (length data = 0%nat)) as [Hlen|Hlen].
    + exists 0. rewrite Hlen. split; [done|]. lia.
    + rewrite decide_False by lia. eexists. split; [done|].
      pose proof (round_half_even_near (Z.of_nat (length data) * 1000)
                    sample_rate Hrate) as Hnear.
      split; [nia|done].
Qed.

Lemma concat_outside (first second : waveform) :
  take (length first - 0) (first ++ second) = take (length first - 0) first
  ∧ drop (length first) (first ++ second) = drop 0 second.
Proof.
  rewrite Nat.sub_0_r, take_app_length, drop_app_length.
  by rewrite take_ge.
Qed.

(** Outside the overlap nothing is changed: the result starts with the
    samples of [first] before the overlap and ends with the samples of
    [second] after it. *)
Theorem cosine_crossfade_outside first second crossfade_samples :
  0 ≤ crossfade_samples →
  let n := Z.to_nat (Z.min crossfade_samples
                       (Z.min (Z.of_nat (length first)) (Z.of_nat (length second)))) in
  take (length first - n) (cosine_crossfade first second crossfade_samples)
  = take (length first - n) first
  ∧ drop (length first) (cosine_crossfade first second crossfade_samples)
    = drop n second.
Proof.
  intros Hnonneg n. unfold cosine_crossfade.
  destruct (Z.leb_spec crossfade_samples 0) as [Hle|Hgt]; simpl.
  { replace n with 0%nat by lia. apply concat_outside. }
  case_bool_decide as Hfirst; simpl.
  { replace n with 0%nat by lia. apply concat_outside. }
  fold n.
  destruct (Z.eqb_spec (Z.min crossfade_samples
              (Z.min (Z.of_nat (length first)) (Z.of_nat (length second)))) 0)
    as [Hzero|Hpos].
  { replace n with 0%nat by lia. apply concat_outside. }
  fold n. split.
  - rewrite take_app_length'; [done|]. rewrite length_take. lia.
  - rewrite app_assoc. rewrite drop_app_length'; [done|].
    rewrite length_app, !length_zip_with, length_take, !length_drop,
      !length_take, Stitching.fade_out_length, Stitching.fade_in_length.
    lia.
Qed.

Lemma cosine_crossfade_outside_witness :
  0 ≤ 2
  ∧ take (3 - 2) (cosine_crossfade [1%R; 2%R; 3%R] [4%R; 5%R; 6%R] 2) = [1%R]
  ∧ drop 3 (cosine_crossfade [1%R; 2%R; 3%R] [4%R; 5%R; 6%R] 2) = [6%R].
Proof.
  split; [lia|].
  apply (cosine_crossfade_outside [1%R; 2%R; 3%R] [4%R; 5%R; 6%R] 2). lia.
Defined.

(** With a crossfade of 0 ms stitching is plain concatenation. *)
Theorem stitch_chunks_no_crossfade chunk_audios sample_rate :
  stitch_chunks chunk_audios sample_rate 0 = concat chunk_audios.
Proof.
  destruct chunk_audios as [|first rest]; [done|].
  unfold stitch_chunks. rewrite Z.mul_0_r.
  change (round_half_even 0 1000) with 0.
  simpl concat. revert first.
  induction rest as [|chunk rest IH]; intros first; simpl.
  - by rewrite app_nil_r.
  - rewrite IH. rewrite Stitching.cosine_crossfade_concat by (left; lia).
    by rewrite app_assoc.
Qed.

End AudioFacts.


(** ** Further properties of project.py *)

Module ProjectFacts.
Import Py PyFacts Project.

Section WithRuntime.
Context `{Runtime}.
Implicit Types (chunk c : ChunkData) (l : list ChunkData).

Lemma get_chunk_from_None_inv pos0 l i :
  get_chunk_from pos0 l i = None → Forall (λ c, index c ≠ i) l.
Proof.
  revert pos0. induction l as [|c0 l IH]; intros pos0; simpl; [constructor|].
  case_decide; [done|]. intros Hget. constructor; [done|]. by eapply IH.
Qed.

Lemma get_chunk_from_first pos0 l i pos c :
  get_chunk_from pos0 l i = Some (pos, c) →
  ∀ j c', (j < pos - pos0)%nat → l !! j = Some c' → index c' ≠ i.
Proof.
  revert pos0. induction l as [|c0 l IH]; intros pos0; simpl; [done|].
  case_decide as Hc0.
  - intros [= <- <-] j c' Hj. lia.
  - intros Hget [|j] c' Hj Hc'; simpl in Hc'.
    + by injection Hc' as <-.
    + apply (IH _ Hget j); [|done].
      apply Generation.get_chunk_from_Some in Hget. lia.
Qed.

(** [get_chunk] finds the first chunk of the list that has the index asked
    for, and finds none only when no chunk has it. *)
Theorem get_chunk_first project i :
  match get_chunk project i with
  | Some (pos, chunk) =>
      chunks project !! pos = Some chunk ∧ index chunk = i
      ∧ ∀ j c, (j < pos)%nat → chunks project !! j = Some c → index c ≠ i
  | None => Forall (λ c, index c ≠ i) (chunks project)
  end.
Proof.
  unfold get_chunk.
  destruct (get_chunk_from 0 (chunks project) i) as [[pos chunk]|] eqn:Hget.
  - pose proof (Generation.get_chunk_from_Some _ _ _ _ _ Hget) as (_ & Hpos & Hi).
    rewrite Nat.sub_0_r in Hpos. split; [done|]. split; [done|].
    intros j c Hj. apply (get_chunk_from_first _ _ _ _ _ Hget). lia.
  - by eapply get_chunk_from_None_inv.
Qed.

(** The list without the first chunk of a given index, the indices being
    unique: exactly the chunks with another index. *)
Lemma chunks_without l i :
  NoDup (index <$> l) →
  let l1 := match get_chunk_from 0 l i with
            | Some (pos, _) => delete pos l
            | None => l
            end in
  NoDup (index <$> l1) ∧ ∀ c, c ∈ l1 ↔ c ∈ l ∧ index c ≠ i.
Proof.
  intros Hnd.
  destruct (get_chunk_from 0 l i) as [[pos old]|] eqn:Hget; simpl.
  - pose proof (Generation.get_chunk_from_Some _ _ _ _ _ Hget) as (_ & Hpos & Hi).
    rewrite Nat.sub_0_r in Hpos. clear Hget.
    pose proof (take_drop_middle l pos old Hpos) as Hl.
    rewrite delete_take_drop.
    set (a := take pos l) in *. set (b := drop (S pos) l) in *.
    clearbody a b. subst l.
    rewrite fmap_app, fmap_cons in Hnd.
    apply NoDup_app in Hnd as (Hnd1 & Hdisj & Hnd2).
    apply NoDup_cons in Hnd2 as [Hold Hnd2].
    split.
    + rewrite fmap_app. apply NoDup_app. split_and!; [done| |done].
      intros x Hx1 Hx2. apply (Hdisj x Hx1). by right.
    + intros c. rewrite !elem_of_app, elem_of_cons. split.
      * intros [Hc|Hc]; (split; [tauto|]); intros Hidx.
        -- apply (Hdisj (index c)); [by apply list_elem_of_fmap_2|].
           rewrite Hidx, <- Hi. by left.
        -- apply Hold. rewrite Hi, <- Hidx. by apply list_elem_of_fmap_2.
      * intros [[Hc|[->|Hc]] Hidx]; [by left|done|by right].
  - split; [done|]. intros c. split; [|tauto]. intros Hc. split; [done|].
    revert Hget Hc. generalize 0%nat.
    induction l as [|c0 l IH]; intros pos0; simpl; [by intros _ ?%elem_of_nil|].
    apply NoDup_cons in Hnd as [_ Hnd].
    case_decide as Hc0; [done|].
    intros Hget [->|Hc]%elem_of_cons; [done|]. by eapply IH.
Qed.

(** Adding a chunk to a project with unique indices replaces the chunk of
    the same index, if any: the indices stay unique, the list is in ascending
    index order, looking up the index gives the new chunk, and every other
    chunk is kept. *)
Theorem add_chunk_replaces project chunk :
  NoDup (index <$> chunks project) →
  let project' := add_chunk project chunk in
  NoDup (index <$> chunks project')
  ∧ ascending index (chunks project')
  ∧ (∃ pos, get_chunk project' (index chunk) = Some (pos, chunk))
  ∧ ∀ c, c ∈ chunks project'
         ↔ c = chunk ∨ (c ∈ chunks project ∧ index c ≠ index chunk).
Proof.
  intros Hnd project'.
  destruct (chunks_without (chunks project) (index chunk) Hnd) as [Hnd1 Hmem1].
  assert (∃ l1, chunks project' = sorted index (l1 ++ [chunk])
                ∧ NoDup (index <$> l1)
                ∧ ∀ c, c ∈ l1 ↔ c ∈ chunks project ∧ index c ≠ index chunk)
    as (l1 & Hchunks & Hnd1' & Hmem).
  { eexists. split; [|split; [exact Hnd1|exact Hmem1]].
    unfold project', add_chunk, get_chunk. simpl.
    by destruct (get_chunk_from 0 (chunks project) (index chunk)) as [[??]|]. }
  clear Hnd1 Hmem1.
  assert (∀ c, c ∈ chunks project'
               ↔ c = chunk ∨ (c ∈ chunks project ∧ index c ≠ index chunk))
    as Hmem'.
  { intros c. rewrite Hchunks, sorted_Permutation, elem_of_app, Hmem.
    rewrite list_elem_of_singleton. tauto. }
  split_and!; [| |
    |done].
  - rewrite Hchunks, sorted_Permutation, fmap_app. apply NoDup_app.
    split_and!; [done| |apply NoDup_singleton].
    intros i [c [-> Hc]]%list_elem_of_fmap_1 Hin.
    apply list_elem_of_singleton in Hin. apply Hmem in Hc. tauto.
  - rewrite Hchunks. apply sorted_ascending.
  - unfold get_chunk.
    destruct (get_chunk_from 0 (chunks project') (index chunk))
      as [[pos c]|] eqn:Hget.
    + exists pos.
      pose proof (Generation.get_chunk_from_Some _ _ _ _ _ Hget) as (_ & Hpos & Hi).
      apply list_elem_of_lookup_2, Hmem' in Hpos as [->|[_ ?]]; done.
    + apply get_chunk_from_None_inv in Hget.
      rewrite Forall_forall in Hget.
      exfalso. apply (Hget chunk); [|done]. apply Hmem'. by left.
Qed.

End WithRuntime.

(** Re-adding chunk 1 to a project with the chunks 1 and 2. *)
Lemma add_chunk_replaces_witness :
  let project := Examples.example_project 40
    [Examples.example_chunk 1 0 1000; Examples.example_chunk 2 960 1000] in
  let chunk := Examples.example_chunk 1 0 500 in
  NoDup (index <$> chunks project)
  ∧ NoDup (index <$> chunks (add_chunk project chunk))
  ∧ ascending index (chunks (add_chunk project chunk))
  ∧ (∃ pos, get_chunk (add_chunk project chunk) (index chunk) = Some (pos, chunk))
  ∧ ∀ c, c ∈ chunks (add_chunk project chunk)
         ↔ c = chunk ∨ (c ∈ chunks project ∧ index c ≠ index chunk).
Proof.
  intros project chunk.
  assert (NoDup (index <$> chunks project)) as Hnd
    by (apply NoDup_cons; split;
        [intros [?|[]%elem_of_nil]%elem_of_cons; done|apply NoDup_singleton]).
  split; [exact Hnd|].
  exact (add_chunk_replaces project chunk Hnd).
Defined.

End ProjectFacts.


(** ** Further properties of engine.py *)

Module EngineFacts.
Import Py PyFacts Project Audio Engine.

(** *** Located spans *)

Lemma skip_length n s :
  (n ≤ String.length s)%nat → String.length (skip n s) = (String.length s - n)%nat.
Proof.
  revert s. induction n as [|n IH]; intros [|a s] Hn; simpl in *; try lia.
  apply IH. lia.
Qed.

(** A position reported by the search is one where the text occurs. *)
Lemma find_in_occurs sub s i j :
  find_in sub s i = j → j ≠ -1 → 0 ≤ i →
  i ≤ j ∧ String.prefix sub (skip (Z.to_nat (j - i)) s) = true.
Proof.
  revert i. induction s as [|a s IH]; intros i Hfind Hj Hi; cbn [find_in] in Hfind.
  - destruct (String.prefix sub "") eqn:Hp; [|lia].
    subst j. by rewrite Z.sub_diag.
  - destruct (String.prefix sub (String a s)) eqn:Hp.
    + subst j. by rewrite Z.sub_diag.
    + destruct (IH (i + 1) Hfind Hj) as [Hle Hocc]; [lia|].
      split; [lia|].
      replace (Z.to_nat (j - i)) with (S (Z.to_nat (j - (i + 1)))) by lia.
      done.
Qed.

Lemma skip_skip n m s : skip n (skip m s) = skip (m + n) s.
Proof.
  revert s. induction m as [|m IH]; intros s; [done|].
  destruct s as [|a s]; simpl; [by destruct n|]. apply IH.
Qed.

Lemma find_occurs s sub start j :
  find s sub start = j → j ≠ -1 → 0 ≤ start →
  start ≤ j ∧ String.prefix sub (skip (Z.to_nat j) s) = true.
Proof.
  unfold find. intros Hfind Hj Hstart.
  destruct (Z.ltb_spec start 0) as [?|_]; [lia|].
  destruct (Z.ltb_spec (len s) start) as [?|Hlen]; [lia|].
  destruct (find_in_occurs _ _ _ _ Hfind Hj Hstart) as [Hle Hocc].
  split; [done|]. rewrite skip_skip in Hocc.
  by replace (Z.to_nat start + Z.to_nat (j - start))%nat with (Z.to_nat j)
    in Hocc by lia.
Qed.

(** What the loop of [_chunk_script] keeps: a non-negative cursor, and for
    every span a non-empty stripped text of one of the raw chunks seen, the
    end [len(text)] after the start, and a start where the text occurs
    whenever it occurs in the script at all. *)
Local Abbreviation good_span script_text raws :=
  (λ span : string * Z * Z,
     span.1.1 ≠ "" ∧ (∃ raw, raw ∈ raws ∧ span.1.1 = strip raw)
     ∧ 0 ≤ span.1.2 ∧ span.2 = span.1.2 + len span.1.1
     ∧ (find script_text span.1.1 0 ≠ -1 →
        String.prefix span.1.1 (skip (Z.to_nat span.1.2) script_text) = true)).

Lemma locate_occurs script_text chunk_text cursor :
  0 ≤ cursor →
  find script_text chunk_text 0 ≠ -1 →
  String.prefix chunk_text
    (skip (Z.to_nat (locate script_text chunk_text cursor)) script_text) = true.
Proof.
  intros Hcursor Hany. unfold locate.
  destruct (decide (find script_text chunk_text cursor = -1)) as [Hnot|Hfound].
  - rewrite decide_False by done.
    by eapply find_occurs.
  - rewrite decide_False by done.
    by eapply find_occurs.
Qed.

Lemma chunk_script_fold script_text raws seen positions cursor :
  0 ≤ cursor →
  Forall (good_span script_text (seen ++ raws)) positions →
  Forall (good_span script_text (seen ++ raws))
    (fold_left (chunk_script_step script_text) raws (positions, cursor)).1.
Proof.
  revert seen positions cursor.
  induction raws as [|raw raws IH]; intros seen positions cursor Hcursor Hall;
    [done|].
  cbn [fold_left]. unfold chunk_script_step at 2.
  replace (seen ++ raw :: raws) with ((seen ++ [raw]) ++ raws) in *
    by (by rewrite <- app_assoc).
  destruct (decide (strip raw = "")) as [Hempty|Hne]; [by apply IH|].
  pose proof (Segmentation.locate_nonneg script_text (strip raw) cursor Hcursor).
  pose proof (Segmentation.len_nonneg (strip raw)).
  apply IH; [lia|].
  apply Forall_app. split; [done|]. constructor; [|constructor].
  cbn. split_and!; [done| |done|done|by apply locate_occurs].
  exists raw. split; [|done]. rewrite !elem_of_app, list_elem_of_singleton. auto.
Qed.

(** Every span returned by [_chunk_script] carries the non-empty stripped
    text of a chunk handed back by the splitter, ends [len(text)] after its
    non-negative start, and, whenever that text occurs in the script at all,
    starts at a position where the script reads exactly that text. *)
Theorem chunk_script_spans split script_text max_words text start end_ :
  (text, start, end_) ∈ _chunk_script split script_text max_words →
  text ≠ ""
  ∧ (∃ raw, raw ∈ split script_text max_words ∧ text = strip raw)
  ∧ 0 ≤ start ∧ end_ = start + len text
  ∧ (find script_text text 0 ≠ -1 →
     String.prefix text (skip (Z.to_nat start) script_text) = true).
Proof.
  intros Hin. unfold _chunk_script in Hin.
  pose proof (chunk_script_fold script_text (split script_text max_words)
                [] [] 0 (Z.le_refl 0) (Forall_nil_2 _)) as Hall.
  rewrite Forall_forall in Hall. exact (Hall _ Hin).
Qed.

Lemma chunk_script_spans_witness :
  let split := λ (_ : string) (_ : Z), ["Hello world. "; "  "; "This is a test."] in
  let script_text := "Hello world. This is a test." in
  ("This is a test.", 13, 28) ∈ _chunk_script split script_text 3
  ∧ "This is a test." ≠ ""
  ∧ (∃ raw, raw ∈ split script_text 3 ∧ "This is a test." = strip raw)
  ∧ 0 ≤ 13 ∧ 28 = 13 + len "This is a test."
  ∧ (find script_text "This is a test." 0 ≠ -1 →
     String.prefix "This is a test." (skip (Z.to_nat 13) script_text) = true).
Proof.
  intros split script_text.
  assert (("This is a test.", 13, 28) ∈ _chunk_script split script_text 3) as Hin
    by (apply list_elem_of_lookup; by exists 1%nat).
  split; [exact Hin|].
  exact (chunk_script_spans split script_text 3 _ _ _ Hin).
Defined.

End EngineFacts.


(** ** Where [_chunk_script] places a span *)

Module Offsets.
Import Py Engine.

(** The text [sub] stands in [s] at position [j]: [s[j:j+len(sub)] == sub]
    with [0 <= j <= len(s)]. *)
Local Abbreviation occurs s sub j :=
  (0 ≤ j ≤ len s ∧ String.prefix sub (skip (Z.to_nat j) s) = true).

Lemma skip_nil n : skip n "" = "".
Proof. by destruct n. Qed.

(** The search reports the first occurrence. *)
Lemma find_in_first sub s i n :
  (n ≤ String.length s)%nat →
  String.prefix sub (skip n s) = true →
  i ≤ find_in sub s i ≤ i + Z.of_nat n.
Proof.
  revert i n. induction s as [|a s IH]; intros i n Hn Hocc; cbn [find_in].
  - rewrite skip_nil in Hocc. rewrite Hocc. lia.
  - destruct (String.prefix sub (String a s)) eqn:Hhere; [lia|].
    destruct n as [|n]; [cbn [skip] in Hocc; congruence|].
    cbn [skip String.length] in Hn, Hocc.
    pose proof (IH (i + 1) n ltac:(lia) Hocc). lia.
Qed.

Lemma find_in_bound sub s i :
  find_in sub s i = -1 ∨ find_in sub s i ≤ i + Z.of_nat (String.length s).
Proof.
  revert i. induction s as [|a s IH]; intros i; cbn [find_in].
  - destruct (String.prefix sub ""); [right; simpl; lia|by left].
  - destruct (String.prefix sub (String a s)); [right; lia|].
    destruct (IH (i + 1)) as [->|?]; [by left|right; simpl; lia].
Qed.

(** [s.find(sub, start)] with [0 <= start]: a result other than [-1] is a
    position at or after [start] where [sub] stands, and no such position
    comes before it; the result is [-1] only when there is none. *)
Lemma find_found s sub start :
  0 ≤ start → find s sub start ≠ -1 →
  start ≤ find s sub start ∧ occurs s sub (find s sub start).
Proof.
  intros Hstart Hfound.
  destruct (EngineFacts.find_occurs s sub start _ eq_refl Hfound Hstart)
    as [Hle Hocc].
  split; [done|]. split; [|done]. split; [lia|].
  unfold find in *. destruct (Z.ltb_spec start 0) as [?|_]; [lia|].
  destruct (Z.ltb_spec (len s) start) as [?|Hlen]; [done|].
  destruct (find_in_bound sub (skip (Z.to_nat start) s) start) as [?|Hb]; [done|].
  rewrite EngineFacts.skip_length in Hb by (unfold len in Hlen; lia).
  unfold len in *. lia.
Qed.

Lemma find_first s sub start j :
  0 ≤ start → start ≤ j → occurs s sub j →
  start ≤ find s sub start ≤ j.
Proof.
  intros Hstart Hj [[_ Hlen] Hocc]. unfold find.
  destruct (Z.ltb_spec start 0) as [?|_]; [lia|].
  destruct (Z.ltb_spec (len s) start) as [?|_]; [lia|].
  pose proof (find_in_first sub (skip (Z.to_nat start) s) start
                (Z.to_nat (j - start))) as Hfirst.
  rewrite EngineFacts.skip_length in Hfirst by (unfold len in Hlen; lia).
  rewrite EngineFacts.skip_skip in Hfirst.
  replace (Z.to_nat start + Z.to_nat (j - start))%nat with (Z.to_nat j)
    in Hfirst by lia.
  unfold len in *. specialize (Hfirst ltac:(lia) Hocc). lia.
Qed.

(** The three cases of [locate], the cursor being non-negative. *)
Lemma locate_placement script_text chunk_text cursor :
  0 ≤ cursor →
  let start := locate script_text chunk_text cursor in
  (∀ j, cursor ≤ j → occurs script_text chunk_text j →
     occurs script_text chunk_text start ∧ cursor ≤ start ≤ j)
  ∧ ((∀ j, cursor ≤ j → ¬ occurs script_text chunk_text j) →
     ∀ j, occurs script_text chunk_text j →
       occurs script_text chunk_text start ∧ start ≤ j ∧ start < cursor)
  ∧ ((∀ j, ¬ occurs script_text chunk_text j) → start = cursor).
Proof.
  intros Hcursor start. unfold start, locate. cbv zeta. clear start. split_and!.
  - intros j Hj Hocc.
    pose proof (find_first _ _ _ _ Hcursor Hj Hocc) as Hfirst.
    rewrite !(decide_False (P := find script_text chunk_text cursor = -1)) by lia.
    destruct (find_found script_text chunk_text cursor Hcursor) as [_ ?]; [lia|].
    split; [done|lia].
  - intros Hnone j Hocc.
    assert (find script_text chunk_text cursor = -1) as ->.
    { destruct (decide (find script_text chunk_text cursor = -1)) as [|Hfound];
        [done|].
      destruct (find_found _ _ _ Hcursor Hfound) as [Hle Hthere].
      by destruct (Hnone _ Hle). }
    rewrite !(decide_True (P := -1 = -1)) by done.
    pose proof (find_first script_text chunk_text 0 j (Z.le_refl 0)
                  ltac:(destruct Hocc; lia) Hocc) as Hfirst.
    rewrite (decide_False (P := find script_text chunk_text 0 = -1)) by lia.
    destruct (find_found script_text chunk_text 0 (Z.le_refl 0)) as [_ Hthere];
      [lia|].
    split; [done|]. split; [lia|].
    destruct (Z.lt_ge_cases (find script_text chunk_text 0) cursor) as [?|Hge];
      [done|].
    by destruct (Hnone _ Hge).
  - intros Hnone.
    assert (∀ start', 0 ≤ start' → find script_text chunk_text start' = -1) as Hnot.
    { intros start' Hstart'.
      destruct (decide (find script_text chunk_text start' = -1)) as [|Hfound];
        [done|].
      destruct (find_found _ _ _ Hstart' Hfound) as [_ Hthere].
      by destruct (Hnone _ Hthere). }
    rewrite (Hnot cursor Hcursor).
    rewrite !(decide_True (P := -1 = -1)) by done.
    rewrite (Hnot 0 (Z.le_refl 0)). by rewrite decide_True.
Qed.

(** C9 (as amended): every span ends [len(text)] after its start, and the
    cursor used for the next span is that end.  The next span is placed by
    three rules.  When its text stands somewhere at or after the cursor, it
    starts at the first such position, so at or after the cursor.  When its
    text stands in the script but nowhere at or after the cursor, it starts
    at the first position where the text stands at all, which is before the
    cursor: the offsets regress.  When its text stands nowhere in the
    script, it starts at the cursor. *)
Theorem chunk_script_offsets split script_text max_words k t1 s1 e1 t2 s2 e2 :
  _chunk_script split script_text max_words !! k = Some (t1, s1, e1) →
  _chunk_script split script_text max_words !! S k = Some (t2, s2, e2) →
  0 ≤ s1 ∧ e1 = s1 + len t1 ∧ e2 = s2 + len t2
  ∧ (∀ j, e1 ≤ j → occurs script_text t2 j →
       occurs script_text t2 s2 ∧ e1 ≤ s2 ≤ j)
  ∧ ((∀ j, e1 ≤ j → ¬ occurs script_text t2 j) →
     ∀ j, occurs script_text t2 j →
       occurs script_text t2 s2 ∧ s2 ≤ j ∧ s2 < e1)
  ∧ ((∀ j, ¬ occurs script_text t2 j) → s2 = e1).
Proof.
  intros H1 H2. unfold _chunk_script in *.
  destruct (Segmentation.chunk_script_loop_invariant script_text
              (split script_text max_words) ([], 0))
    as (_ & _ & Hall & Hnext).
  { split_and!; [done|done|constructor|]. intros ? ? ? Hnil. done. }
  pose proof (proj1 (Forall_lookup _ _) Hall _ _ H1) as [Hs1 He1].
  pose proof (proj1 (Forall_lookup _ _) Hall _ _ H2) as [Hs2 He2].
  pose proof (Hnext _ _ _ H1 H2) as Hloc. simpl in *.
  pose proof (Segmentation.len_nonneg t1).
  split_and!; [done..| | |];
    rewrite Hloc; apply locate_placement; lia.
Qed.

(** A run with one span of each kind after the first: ["x"] stands after
    the cursor, the second ["go on."] only before it, ["zz"] nowhere. *)
Lemma chunk_script_offsets_witness :
  let split := λ (_ : string) (_ : Z), ["go on."; "x"; "go on."; "zz"] in
  let script_text := "go on. x go  on." in
  _chunk_script split script_text 2
  = [("go on.", 0, 6); ("x", 7, 8); ("go on.", 0, 6); ("zz", 6, 8)]
  ∧ 0 ≤ 7 ∧ 8 = 7 + len "x" ∧ 6 = 0 + len "go on."
  ∧ (∀ j, 8 ≤ j → occurs script_text "go on." j →
       occurs script_text "go on." 0 ∧ 8 ≤ 0 ≤ j)
  ∧ ((∀ j, 8 ≤ j → ¬ occurs script_text "go on." j) →
     ∀ j, occurs script_text "go on." j →
       occurs script_text "go on." 0 ∧ 0 ≤ j ∧ 0 < 8)
  ∧ ((∀ j, ¬ occurs script_text "go on." j) → 0 = 8).
Proof.
  intros split script_text.
  split; [reflexivity|].
  apply (chunk_script_offsets split script_text 2 1
           "x" 7 8 "go on." 0 6); reflexivity.
Defined.

(** C9 as stated fails: the helper hands back the third sentence with its
    double space collapsed; it is not found after the cursor (8) and is
    placed at its first occurrence (0), before the previous span. *)
Lemma chunk_script_regress :
  _chunk_script (λ (_ : string) (_ : Z), ["go on."; "x"; "go on."]) "go on. x go  on." 2
  = [("go on.", 0, 6); ("x", 7, 8); ("go on.", 0, 6)].
Proof. reflexivity. Qed.

End Offsets.


(** ** Error behaviour of engine.py *)

Module EngineErrors.
Import Py PyFacts Project Audio Engine.

Section WithRuntime.
Context `{Runtime}.

Section Collaborators.
Variable split_text_into_chunks : string → Z → list string.
Variable render_text :
  ProjectSettings → TTSOptions → string → Z → option dict → waveform.
Variable load_audio : string → Z → option waveform.
Variable time_stretch : waveform → R → waveform.

Lemma chunk_script_fold_blank script_text raws st :
  Forall (λ raw, strip raw = "") raws →
  fold_left (chunk_script_step script_text) raws st = st.
Proof.
  intros Hall. revert st.
  induction Hall as [|raw raws Hraw Hall IH]; intros st; [done|].
  cbn [fold_left]. rewrite <- (IH st) at 2. f_equal.
  destruct st as [positions cursor]. unfold chunk_script_step.
  by rewrite decide_True.
Qed.

(** When the splitter returns nothing but blank chunks (or nothing at all),
    [generate_project] fails: no project is returned. *)
Theorem generate_project_no_chunks script_text project_root settings tts_options
    max_words_per_chunk disk :
  Forall (λ raw, strip raw = "")
    (split_text_into_chunks script_text max_words_per_chunk) →
  generate_project split_text_into_chunks render_text script_text project_root
    settings tts_options max_words_per_chunk disk = None.
Proof.
  intros Hblank. unfold generate_project, _chunk_script.
  by rewrite chunk_script_fold_blank.
Qed.

(** [replace_chunk] fails when there is no project document, when no chunk
    has the index asked for, when the mode is neither ["tts"] nor ["import"],
    and when the mode is ["import"] without a file to import. *)
Theorem replace_chunk_rejects parent index mode timeline_mode seed overrides
    import_path disk :
  let result := replace_chunk render_text load_audio time_stretch parent index
                  mode timeline_mode seed overrides import_path disk in
  (document disk = None → result = None)
  ∧ (∀ saved project,
       document disk = Some saved → load_project parent saved = Some project →
       get_chunk project index = None → result = None)
  ∧ (mode ≠ "tts" → mode ≠ "import" → result = None)
  ∧ (mode = "import" → import_path = None → result = None).
Proof.
  intros result.
  assert (∀ project chunk defaults,
            (mode ≠ "tts" ∧ mode ≠ "import") ∨ (mode = "import" ∧ import_path = None) →
            new_audio render_text load_audio project chunk defaults mode seed
                      overrides import_path = None) as Hnew.
  { intros project chunk defaults Hcase. unfold new_audio.
    destruct Hcase as [[Htts Himport]|[-> ->]].
    - by rewrite !decide_False.
    - by rewrite decide_False, decide_True. }
  assert ((mode ≠ "tts" ∧ mode ≠ "import") ∨ (mode = "import" ∧ import_path = None) →
          result = None) as Hmode.
  { intros Hcase. unfold result, replace_chunk.
    destruct (document disk) as [saved|]; [|done]. cbn [mbind option_bind].
    destruct (load_project parent saved) as [project|]; [|done].
    cbn [mbind option_bind].
    destruct (get_chunk project index) as [[pos chunk]|]; [|done].
    cbn [mbind option_bind].
    destruct (_archive_chunk project chunk disk) as [[archived disk1]|]; [|done].
    cbn [mbind option_bind].
    destruct (_default_tts_options (settings project)) as [defaults|]; [|done].
    cbn [mbind option_bind]. by rewrite Hnew. }
  split_and!.
  - intros Hdoc. unfold result, replace_chunk. by rewrite Hdoc.
  - intros saved project Hdoc Hload Hget. unfold result, replace_chunk.
    rewrite Hdoc. cbn [mbind option_bind]. rewrite Hload.
    cbn [mbind option_bind]. by rewrite Hget.
  - intros Htts Himport. apply Hmode. by left.
  - intros Himport Hpath. apply Hmode. by right.
Qed.

End Collaborators.
End WithRuntime.

(** A script of blanks: the splitter returns two blank chunks. *)
Lemma generate_project_no_chunks_witness :
  let split := λ (_ : string) (_ : Z), ["   "; ""] in
  Forall (λ raw, strip raw = "") (split "   " 80)
  ∧ generate_project split Examples.example_render "   " "project"
      (Examples.example_settings 40) Examples.example_options 80
      Examples.empty_disk = None.
Proof.
  intros split.
  assert (Forall (λ raw, strip raw = "") (split "   " 80)) as Hblank
    by (by repeat constructor).
  split; [exact Hblank|].
  exact (generate_project_no_chunks split Examples.example_render "   " "project"
           (Examples.example_settings 40) Examples.example_options 80
           Examples.empty_disk Hblank).
Defined.

End EngineErrors.


(** ** Stored starts, and instances of the conditional lemmas on lookup and
    stretch *)

Module Instances.
Import Py PyFacts Project Audio Engine.

(** The starts that [recalculate_timeline] assigns do not depend on the
    starts stored before: two projects with the same indices, durations and
    crossfade get the same starts. *)
Theorem recalculate_timeline_ignores_starts `{Runtime} project1 project2 :
  index <$> chunks project1 = index <$> chunks project2 →
  duration_ms <$> chunks project1 = duration_ms <$> chunks project2 →
  crossfade_ms (settings project1) = crossfade_ms (settings project2) →
  t_start_ms <$> chunks (recalculate_timeline project1)
  = t_start_ms <$> chunks (recalculate_timeline project2).
Proof. apply Timeline.recalculate_timeline_deterministic. Qed.

(** A lookup before the first start of a gap-free two-chunk project. *)
Lemma find_chunk_by_timestamp_gap_free_witness :
  let project := Examples.example_project 100
    [Examples.example_chunk 1 0 1000; Examples.example_chunk 2 900 1000] in
  ascending index (chunks project)
  ∧ Spec.gap_free (chunks project)
  ∧ find_chunk_by_timestamp project (-1) = None
  ∧ (chunks project = [] ∨
     ∃ first, head (chunks project) = Some first ∧ -1 < t_start_ms first).
Proof.
  intros project.
  assert (ascending index (chunks project)) as Hasc
    by (constructor; [simpl; lia|constructor]).
  assert (Spec.gap_free (chunks project)) as Hgap
    by (constructor; [simpl; lia|constructor]).
  split; [exact Hasc|]. split; [exact Hgap|]. split; [reflexivity|].
  exact (Lookup.find_chunk_by_timestamp_gap_free project (-1) Hasc Hgap eq_refl).
Defined.

(** Two projects that differ in their stored starts only. *)
Lemma recalculate_timeline_ignores_starts_witness :
  let project1 := Examples.example_project 100
    [Examples.example_chunk 1 0 1000; Examples.example_chunk 2 0 1000] in
  let project2 := Examples.example_project 100
    [Examples.example_chunk 1 77 1000; Examples.example_chunk 2 (-5) 1000] in
  index <$> chunks project1 = index <$> chunks project2
  ∧ duration_ms <$> chunks project1 = duration_ms <$> chunks project2
  ∧ crossfade_ms (settings project1) = crossfade_ms (settings project2)
  ∧ t_start_ms <$> chunks (recalculate_timeline project1)
    = t_start_ms <$> chunks (recalculate_timeline project2).
Proof.
  intros project1 project2.
  split; [reflexivity|]. split; [reflexivity|]. split; [reflexivity|].
  exact (recalculate_timeline_ignores_starts project1 project2
           eq_refl eq_refl eq_refl).
Defined.

(** Five samples at 24 kHz round to 0 ms. *)
Lemma time_stretch_to_duration_skipped_witness :
  calculate_duration_ms (replicate 5 0%R) 24000 = Some 0
  ∧ time_stretch_to_duration Examples.example_stretch (replicate 5 0%R) 24000 1000
    = Some (replicate 5 0%R).
Proof.
  split; [reflexivity|].
  exact (Stretching.time_stretch_to_duration_skipped Examples.example_stretch
           (replicate 5 0%R) 24000 1000 (or_intror eq_refl)).
Defined.

End Instances.


(** ** Loudness matching *)

Module Loudness.
Import Py Audio.
Local Open Scope R_scope.

Lemma clip_range x : -1 <= clip x <= 1.
Proof.
  unfold clip, Rmin, Rmax.
  repeat destruct (Rle_dec _ _); lra.
Qed.

Lemma clip_inside x : -1 <= x <= 1 → clip x = x.
Proof.
  intros Hx. unfold clip, Rmin, Rmax.
  repeat destruct (Rle_dec _ _); lra.
Qed.

Lemma clip_sign x : (0 <= x → 0 <= clip x) ∧ (x <= 0 → clip x <= 0).
Proof.
  unfold clip, Rmin, Rmax.
  repeat destruct (Rle_dec _ _); lra.
Qed.

Section Loudness.
Variable mean_square : waveform → nonnegreal.

Local Abbreviation rms := (rms mean_square).
Local Abbreviation rms_loudness_lufs := (rms_loudness_lufs mean_square).
Local Abbreviation match_loudness := (match_loudness mean_square).

Lemma gain_positive x : 0 < Rpower 10 x.
Proof. unfold Rpower. apply exp_pos. Qed.

(** The gain applied to a waveform that is not silent. *)
Lemma gain_audible data target_lufs :
  0 < rms data →
  Rpower 10 ((target_lufs - rms_loudness_lufs data) / 20)
  = Rpower 10 (target_lufs / 20) / (rms data + / 10 ^ 12).
Proof.
  intros Hrms. unfold Audio.rms_loudness_lufs.
  destruct (Rle_dec (rms data) 0) as [?|_]; [lra|].
  assert (0 < rms data + / 10 ^ 12) as Hpos.
  { assert (0 < / 10 ^ 12) by (apply Rinv_0_lt_compat; lra). lra. }
  replace ((target_lufs - 20 * Rlog 10 (rms data + / 10 ^ 12)) / 20)
    with (target_lufs / 20 + - Rlog 10 (rms data + / 10 ^ 12)) by lra.
  rewrite Rpower_plus, Rpower_Ropp, Rpower_Rlog by lra.
  done.
Qed.

Lemma match_loudness_clipped data target_lufs :
  Forall (λ y, -1 <= y <= 1) (match_loudness data target_lufs).
Proof.
  unfold Audio.match_loudness. cbv zeta.
  apply Forall_fmap, Forall_true. intros y. apply clip_range.
Qed.

(** The result has the length of the input, every sample of it lies in
    [-1, 1], and no sample changes sign: zero stays zero, so silence is
    returned as it is. *)
Theorem match_loudness_range data target_lufs :
  length (match_loudness data target_lufs) = length data
  ∧ Forall (λ y, -1 <= y <= 1) (match_loudness data target_lufs)
  ∧ ∀ i x y,
      data !! i = Some x → match_loudness data target_lufs !! i = Some y →
      (0 <= x → 0 <= y) ∧ (x <= 0 → y <= 0).
Proof.
  unfold Audio.match_loudness. cbv zeta.
  set (gain := Rpower 10 _).
  assert (0 < gain) as Hgain by apply gain_positive.
  split; [by rewrite !length_fmap|]. split.
  - apply (match_loudness_clipped data target_lufs).
  - intros i x y Hx. unfold waveform in *.
    rewrite !list_lookup_fmap, Hx. intros [= <-].
    destruct (clip_sign (x * gain)) as [Hpos Hneg]. split; intros Hsign.
    + apply Hpos. apply Rmult_le_pos; lra.
    + apply Hneg. replace 0 with (0 * gain) by lra.
      apply Rmult_le_compat_r; lra.
Qed.

(** The computed root mean square is 0 exactly for an empty waveform and
    for one whose computed mean of squares is 0. *)
Lemma rms_zero data :
  rms data <= 0 ↔ data = [] ∨ nonneg (mean_square data) = 0.
Proof.
  unfold Audio.rms. case_decide as Hlen.
  - split; [|lra]. intros _. left. by apply length_zero_iff_nil.
  - pose proof (cond_nonneg (mean_square data)) as Hnonneg.
    pose proof (sqrt_pos (mean_square data)) as Hsqrt.
    split.
    + intros Hle. right.
      apply sqrt_eq_0; [done|lra].
    + intros [->|Hzero]; [done|]. rewrite Hzero, sqrt_0. lra.
Qed.

(** Every sample is multiplied by one gain and then clipped.  For a
    waveform whose computed root mean square is positive the gain is
    [10^(target/20) / (rms + 1e-12)].  When the computed root mean square is
    0 (an empty waveform, silence, or samples so quiet that the mean of
    their squares underflows to 0) the level is taken as -80 and the gain is
    [10^((target + 80)/20)]. *)
Theorem match_loudness_level data target_lufs :
  (0 < rms data →
   match_loudness data target_lufs
   = clip <$> ((λ x, x * (Rpower 10 (target_lufs / 20) / (rms data + / 10 ^ 12)))
                 <$> data))
  ∧ (data = [] ∨ nonneg (mean_square data) = 0 →
     match_loudness data target_lufs
     = clip <$> ((λ x, x * Rpower 10 ((target_lufs + 80) / 20)) <$> data)).
Proof.
  split.
  - intros Hrms. unfold Audio.match_loudness. cbv zeta.
    by rewrite gain_audible.
  - intros Hzero%rms_zero. unfold Audio.match_loudness, Audio.rms_loudness_lufs.
    cbv zeta. destruct (Rle_dec (rms data) 0) as [_|?]; [|done].
    by replace (target_lufs - -80) with (target_lufs + 80) by lra.
Qed.

End Loudness.

(** A waveform of one sample of [1e-30]: its exact root mean square is
    positive, but in a float arithmetic where the square underflows the
    silent branch is taken, with the gain [10^(64/20)] for a target of -16. *)
Example match_loudness_underflow :
  let quiet := / 10 ^ 30 in
  0 < Audio.rms Examples.example_mean_square [quiet]
  ∧ Audio.match_loudness Examples.example_underflow [quiet] (-16)
    = [clip (quiet * Rpower 10 (64 / 20))].
Proof.
  intros quiet. split.
  - unfold Audio.rms. cbn.
    assert (0 < quiet) by (apply Rinv_0_lt_compat; lra).
    apply sqrt_lt_R0. unfold Rdiv. rewrite Rinv_1. nra.
  - unfold Audio.match_loudness, Audio.rms_loudness_lufs. cbv zeta.
    assert (Audio.rms Examples.example_underflow [quiet] = 0) as ->.
    { unfold Audio.rms. rewrite decide_False by done. apply sqrt_0. }
    destruct (Rle_dec 0 0) as [_|?]; [|lra].
    replace ((-16 - -80) / 20) with (64 / 20) by lra. done.
Qed.

End Loudness.


(** ** The final mix and the lookup on a saved project *)

Module FinalMix.
Import Py PyFacts Project Audio Engine Examples.

Section WithRuntime.
Context `{Runtime}.

Section Mix.
Variable load_chunk_audio : string → waveform → Z → option waveform.
Variable real_of_float : float → R.
Variable mean_square : waveform → nonnegreal.

Local Abbreviation build_final_mix :=
  (build_final_mix load_chunk_audio real_of_float mean_square).


(** A mix that is written holds samples in [-1, 1] only; for a project
    without chunks it is empty. *)
Theorem build_final_mix_range parent disk mix :
  build_final_mix parent disk = Some mix →
  Forall (λ y, -1 <= y <= 1)%R mix
  ∧ (∀ project, document disk ≫= load_project parent = Some project →
                chunks project = [] → mix = []).
Proof.
  unfold Engine.build_final_mix. intros Hmix.
  destruct (document disk ≫= load_project parent) as [project|]; [|done].
  cbn [mbind option_bind] in Hmix.
  destruct (mapM _ _) as [audios|] eqn:Hall; [|done].
  cbn [mbind option_bind] in Hmix. injection Hmix as <-. split.
  - apply Loudness.match_loudness_clipped.
  - intros ? [= <-] Hnil. rewrite Hnil in Hall. by injection Hall as <-.
Qed.

End Mix.

(** Looking a timestamp up in a project saved to disk gives what the lookup
    gives in memory, when the chunk list is in ascending index order (as
    [add_chunk] and [load_project] leave it). *)
Theorem find_chunk_saved parent project timestamp_ms disk :
  ascending index (chunks project) →
  find_chunk parent timestamp_ms (save project disk)
  = Some (find_chunk_by_timestamp project timestamp_ms).
Proof.
  intros Hasc. unfold find_chunk, save. cbn [document mbind option_bind].
  rewrite Persistence.load_save. cbn [mbind option_bind].
  by rewrite (sorted_of_ascending _ _ Hasc).
Qed.

End WithRuntime.


(** The mix of the one-chunk project of [example_disk]. *)
Lemma build_final_mix_range_witness :
  let mix := match_loudness example_mean_square [0%R]
               (example_real (float_lit (-16) 0)) in
  build_final_mix example_read example_real example_mean_square "project"
    (example_disk 1000) = Some mix
  ∧ Forall (λ y, -1 <= y <= 1)%R mix
  ∧ (∀ project,
       document (example_disk 1000) ≫= load_project "project" = Some project →
       chunks project = [] → mix = []).
Proof.
  intros mix.
  assert (build_final_mix example_read example_real example_mean_square "project"
            (example_disk 1000)
          = Some mix) as Hmix by reflexivity.
  split; [exact Hmix|].
  exact (build_final_mix_range example_read example_real example_mean_square
           "project" (example_disk 1000) mix Hmix).
Defined.

(** A lookup in a saved two-chunk project. *)
Lemma find_chunk_saved_witness :
  let project := example_project 40
    [example_chunk 1 0 1000; example_chunk 2 960 1000] in
  ascending index (chunks project)
  ∧ find_chunk "project" 1500 (save project empty_disk)
    = Some (find_chunk_by_timestamp project 1500).
Proof.
  intros project.
  assert (ascending index (chunks project)) as Hasc
    by (constructor; [simpl; lia|constructor]).
  split; [exact Hasc|].
  exact (find_chunk_saved "project" project 1500 empty_disk Hasc).
Defined.

End FinalMix.


(** ** The printed excerpt *)

Module Excerpt.
Import Py Cli.

Lemma substring_length n s :
  (n ≤ String.length s)%nat → String.length (String.substring 0 n s) = n.
Proof.
  revert s. induction n as [|n IH]; intros [|a s] Hn; simpl in *;
    [done|done|lia|].
  f_equal. apply IH. lia.
Qed.

Lemma app_length s t :
  String.length (s +:+ t) = (String.length s + String.length t)%nat.
Proof.
  induction s as [|a s IH]; [done|].
  rewrite Archive.string_app_cons. simpl. by rewrite IH.
Qed.

Lemma substring_prefix n s : String.prefix (String.substring 0 n s) s = true.
Proof.
  revert s. induction n as [|n IH]; intros [|a s]; simpl; try done.
  destruct (Ascii.ascii_dec a a) as [_|]; [apply IH|done].
Qed.

(** The excerpt never has more than 160 characters.  It is the stripped
    text when that has at most 160 characters; otherwise it has exactly 160
    characters: the first 157 of the stripped text and three dots. *)
Theorem text_excerpt_length text :
  len (text_excerpt text) ≤ 160
  ∧ (len (strip text) ≤ 160 → text_excerpt text = strip text)
  ∧ (160 < len (strip text) →
     len (text_excerpt text) = 160
     ∧ ∃ head, text_excerpt text = head +:+ "..."
               ∧ len head = 157 ∧ String.prefix head (strip text) = true).
Proof.
  unfold text_excerpt, len. cbv zeta.
  destruct (Z.ltb_spec 160 (Z.of_nat (String.length (strip text)))) as [Hlong|Hshort].
  - assert (String.length (String.substring 0 157 (strip text)) = 157%nat) as Hhead
      by (apply substring_length; lia).
    assert (String.length (String.substring 0 157 (strip text) +:+ "...") = 160%nat)
      as Hall by (rewrite app_length, Hhead; done).
    rewrite Hall. split; [lia|]. split; [lia|]. intros _. split; [done|].
    eexists. split; [done|]. split; [by rewrite Hhead|apply substring_prefix].
  - split; [done|]. split; [done|lia].
Qed.

End Excerpt.


(** ** What [generate_project] leaves behind *)

Module Generated.
Import Py PyFacts Project Audio Engine.

Section WithRuntime.
Context `{Runtime}.

(** *** Projects that [recalculate_timeline] leaves alone *)

Lemma zip_ascending (store : list ChunkData) k :
  ascending index store →
  ascending (λ ref : nat * ChunkData, index ref.2) (zip (seq k (length store)) store).
Proof.
  intros Hasc. revert k.
  induction Hasc as [|c|a b l Hab Hasc IH]; intros k; simpl.
  - constructor.
  - constructor.
  - constructor; [done|]. apply (IH (S k)).
Qed.

Lemma sorted_refs_ascending (store : list ChunkData) :
  ascending index store →
  (sorted_refs store).*1 = seq 0 (length store).
Proof.
  intros Hasc. unfold sorted_refs.
  rewrite sorted_of_ascending by by apply zip_ascending.
  apply fst_zip. by rewrite length_seq.
Qed.

Lemma set_t_start_ms_same (c : ChunkData) : set_t_start_ms c (t_start_ms c) = c.
Proof. by destruct c. Qed.

Lemma recalculate_timeline_fixed project :
  ascending index (chunks project) →
  t_start_ms <$> chunks project
  = Spec.timeline_starts (crossfade_ms (settings project)) 0
      (duration_ms <$> chunks project) →
  recalculate_timeline project = project.
Proof.
  intros Hasc Hstarts.
  destruct (Timeline.recalculated_lookup project) as [Hlen Hin].
  rewrite (sorted_refs_ascending _ Hasc) in Hin.
  assert ((λ p, from_option duration_ms 0 (chunks project !! p))
            <$> seq 0 (length (chunks project))
          = duration_ms <$> chunks project) as Hds.
  { apply list_eq. intros p. rewrite !list_lookup_fmap.
    destruct (chunks project !! p) as [c|] eqn:Hc.
    - rewrite lookup_seq_lt by by eapply lookup_lt_Some.
      simpl. by rewrite Hc.
    - rewrite (proj2 (lookup_ge_None _ _)); [done|].
      rewrite length_seq. by apply lookup_ge_None. }
  rewrite Hds, <- Hstarts in Hin.
  rewrite Timeline.recalculate_timeline_unfold.
  assert (chunks (recalculate_timeline project) = chunks project) as ->;
    [|by destruct project].
  apply list_eq. intros p.
  destruct (chunks project !! p) as [c|] eqn:Hc.
  - destruct (Hin p p) as (c' & t & Hc' & Ht & ->).
    { apply lookup_seq. split; [done|]. by eapply lookup_lt_Some. }
    rewrite list_lookup_fmap, Hc in Ht. injection Ht as <-.
    rewrite Hc in Hc'. injection Hc' as <-. by rewrite set_t_start_ms_same.
  - apply lookup_ge_None. rewrite Hlen. by apply lookup_ge_None.
Qed.

Section Collaborators.
Variable split_text_into_chunks : string → Z → list string.
Variable render_text :
  ProjectSettings → TTSOptions → string → Z → option dict → waveform.

(** *** The loop *)

(** What holds of a rendered chunk whatever the disk holds. *)
Local Abbreviation rendered settings tts_options := (λ c : ChunkData,
  filename c = "chunk_" +:+ format_03d (index c) +:+ ".flac"
  ∧ calculate_duration_ms
      (render_text settings tts_options (text c) (seed c) None)
      (sample_rate settings) = Some (duration_ms c)
  ∧ params c = as_dict tts_options).

Local Abbreviation span := (λ c : ChunkData, (text c, char_start c, char_end c)).

Local Abbreviation on_disk disk :=
  (λ c : ChunkData, is_Some (chunk_files disk !! filename c)).

Lemma generate_loop_state settings tts_options chunk_specs :
  ∀ n project next_start disk project' disk',
  index <$> chunks project = (λ k : nat, Z.of_nat k + 1) <$> seq 0 n →
  0 ≤ next_start →
  (∀ ds, Spec.timeline_starts (crossfade_ms settings) 0
           ((duration_ms <$> chunks project) ++ ds)
         = (t_start_ms <$> chunks project)
           ++ Spec.timeline_starts (crossfade_ms settings) next_start ds) →
  Forall (rendered settings tts_options) (chunks project) →
  Forall (on_disk disk) (chunks project) →
  chunk_specs ≠ [] ∨ document disk = Some (save_project project) →
  generate_loop render_text settings tts_options (Z.of_nat n + 1) chunk_specs
                project next_start disk = Some (project', disk') →
  Project.settings project' = Project.settings project
  ∧ index <$> chunks project'
    = (λ k : nat, Z.of_nat k + 1) <$> seq 0 (n + length chunk_specs)
  ∧ span <$> chunks project' = (span <$> chunks project) ++ chunk_specs
  ∧ t_start_ms <$> chunks project'
    = Spec.timeline_starts (crossfade_ms settings) 0 (duration_ms <$> chunks project')
  ∧ Forall (rendered settings tts_options) (chunks project')
  ∧ Forall (on_disk disk') (chunks project')
  ∧ document disk' = Some (save_project project').
Proof.
  induction chunk_specs as [|[[chunk_text char_start] char_end] chunk_specs IH];
    intros n project next_start disk project' disk' Hidx Hnext Hline Hall Hdisk Hdoc;
    simpl.
  { intros [= <- <-]. destruct Hdoc as [?|Hdoc]; [done|].
    rewrite Nat.add_0_r, app_nil_r. split_and!; try done.
    specialize (Hline []). by rewrite !app_nil_r in Hline. }
  destruct (calculate_duration_ms _ _) as [duration|] eqn:Hduration; simpl; [|done].
  set (chunk := {| index := Z.of_nat n + 1 |}).
  intros Hloop.
  replace (Z.of_nat n + 1 + 1) with (Z.of_nat (S n) + 1) in Hloop by lia.
  assert (chunks (add_chunk project chunk) = chunks project ++ [chunk]) as Hadd.
  { apply Generation.add_chunk_fresh.
    - by eapply Generation.numbered_ascending.
    - apply Forall_lookup. intros k c Hk.
      destruct (Generation.numbered_lookup _ _ _ _ Hidx Hk) as [-> ?]. simpl. lia. }
  apply IH in Hloop.
  - destruct Hloop as (Hsettings & Hidx' & Hspans & Hrest).
    split; [done|]. split.
    { by replace (n + S (length chunk_specs))%nat
        with (S n + length chunk_specs)%nat by lia. }
    split; [|done].
    rewrite Hspans, Hadd, fmap_app, <- app_assoc. done.
  - rewrite Hadd, fmap_app, Hidx, seq_S, fmap_app. done.
  - destruct (Z.ltb_spec (next_start + duration - crossfade_ms settings) 0); lia.
  - intros ds. rewrite Hadd, !fmap_app, <- !app_assoc.
    change (duration_ms <$> [chunk]) with [duration].
    change (t_start_ms <$> [chunk]) with [next_start].
    rewrite (Hline ([duration] ++ ds)). f_equal. simpl.
    by rewrite Z.max_l by done.
  - rewrite Hadd. apply Forall_app. split; [done|].
    constructor; [|constructor]. done.
  - rewrite Hadd. apply Forall_app. split.
    + eapply Forall_impl; [exact Hdisk|]. intros c [audio Hc]. simpl.
      destruct (decide (filename chunk = filename c)) as [<-|Hne].
      * rewrite lookup_insert_eq. by eexists.
      * rewrite lookup_insert_ne by done. by eexists.
    + constructor; [|constructor]. simpl. rewrite lookup_insert_eq. by eexists.
  - by right.
Qed.

(** The project that [generate_project] returns is the one saved in
    [project.json]; its chunks carry, in order, the texts and offsets of the
    spans of [_chunk_script]; every chunk is named [chunk_NNN.flac] after
    its index, its file is on the disk, its parameters are the TTS options,
    and its duration is that of the audio rendered from its text and
    seed. *)
Theorem generate_project_chunks script_text project_root settings tts_options
    max_words_per_chunk disk project disk' :
  generate_project split_text_into_chunks render_text script_text project_root
    settings tts_options max_words_per_chunk disk = Some (project, disk') →
  document disk' = Some (save_project project)
  ∧ span <$> chunks project
    = _chunk_script split_text_into_chunks script_text max_words_per_chunk
  ∧ Forall (λ c, rendered (Project.settings project) tts_options c
                 ∧ on_disk disk' c) (chunks project).
Proof.
  unfold generate_project. intros Hgen.
  destruct (_chunk_script _ _ _) as [|spec chunk_specs] eqn:Hspecs; [done|].
  apply (generate_loop_state _ _ _ 0%nat) in Hgen
    as (Hsettings & _ & Hspans & _ & Hall & Hdisk & Hdoc);
    [|done|done|by intros ds|constructor|constructor|by left].
  split; [done|]. split; [done|].
  rewrite Hsettings. cbn [Project.settings].
  apply Forall_forall. intros c Hc. split.
  - by apply (proj1 (Forall_forall _ _) Hall).
  - by apply (proj1 (Forall_forall _ _) Hdisk).
Qed.

(** The timeline of a generated project is already the one
    [recalculate_timeline] computes: recalculating changes nothing. *)
Theorem generate_project_timeline script_text project_root settings tts_options
    max_words_per_chunk disk project disk' :
  generate_project split_text_into_chunks render_text script_text project_root
    settings tts_options max_words_per_chunk disk = Some (project, disk') →
  recalculate_timeline project = project.
Proof.
  unfold generate_project. intros Hgen.
  destruct (_chunk_script _ _ _) as [|spec chunk_specs] eqn:Hspecs; [done|].
  apply (generate_loop_state _ _ _ 0%nat) in Hgen
    as (Hsettings & Hidx & _ & Hline & _);
    [|done|done|by intros ds|constructor|constructor|by left].
  apply recalculate_timeline_fixed.
  - by eapply Generation.numbered_ascending.
  - by rewrite Hsettings.
Qed.

End Collaborators.
End WithRuntime.

(** A run of [generate_project] on the sample script. *)
Lemma generate_project_chunks_witness :
  ∃ project disk',
    generate_project Examples.example_split Examples.example_render
      "Hello world. This is a test." "project" (Examples.example_settings 40)
      Examples.example_options 80 Examples.empty_disk = Some (project, disk')
    ∧ document disk' = Some (save_project project)
    ∧ (λ c, (text c, char_start c, char_end c)) <$> chunks project
      = _chunk_script Examples.example_split "Hello world. This is a test." 80
    ∧ Forall (λ c,
        (filename c = "chunk_" +:+ format_03d (index c) +:+ ".flac"
         ∧ calculate_duration_ms
             (Examples.example_render (Project.settings project)
                Examples.example_options (text c) (seed c) None)
             (sample_rate (Project.settings project)) = Some (duration_ms c)
         ∧ params c = as_dict Examples.example_options)
        ∧ is_Some (chunk_files disk' !! filename c)) (chunks project).
Proof.
  eexists _, _.
  split; [vm_compute; reflexivity|].
  eapply (generate_project_chunks Examples.example_split Examples.example_render
            "Hello world. This is a test." "project" (Examples.example_settings 40)
            Examples.example_options 80 Examples.empty_disk).
  vm_compute. reflexivity.
Defined.

Lemma generate_project_timeline_witness :
  ∃ project disk',
    generate_project Examples.example_split Examples.example_render
      "Hello world. This is a test." "project" (Examples.example_settings 2000)
      Examples.example_options 80 Examples.empty_disk = Some (project, disk')
    ∧ recalculate_timeline project = project.
Proof.
  eexists _, _.
  split; [vm_compute; reflexivity|].
  eapply (generate_project_timeline Examples.example_split Examples.example_render
            "Hello world. This is a test." "project" (Examples.example_settings 2000)
            Examples.example_options 80 Examples.empty_disk).
  vm_compute. reflexivity.
Defined.

End Generated.

(** ** The steps of [replace_chunk] *)

Module ReplaceSteps.
Import Py PyFacts Project Audio Engine.

Section WithRuntime.
Context `{Runtime}.

(** *** Loaded projects *)





Section Collaborators.
Variable render_text :
  ProjectSettings → TTSOptions → string → Z → option dict → waveform.
Variable load_audio : string → Z → option waveform.
Variable time_stretch : waveform → R → waveform.

Local Abbreviation replace_chunk := (replace_chunk render_text load_audio time_stretch).
Local Abbreviation new_audio := (new_audio render_text load_audio).
Local Abbreviation reconcile := (reconcile time_stretch).

(** *** The new audio *)



(** *** The whole call *)




End Collaborators.
End WithRuntime.
End ReplaceSteps.


(** ** Replacement in locked timeline mode *)

Module Locked.
Import Py PyFacts Project Audio Engine.


Section WithRuntime.
Context `{Runtime}.

Section Collaborators.
Variable render_text :
  ProjectSettings → TTSOptions → string → Z → option dict → waveform.
Variable load_audio : string → Z → option waveform.
Variable time_stretch : waveform → R → waveform.


End Collaborators.
End WithRuntime.



End Locked.


(** ** Archived versions across replacements *)

Module Versions.
Import Py PyFacts Project Audio Engine.

(** The name [_archive_chunk] gives to version [n] of a stem. *)
Local Abbreviation versioned stem n := (stem +:+ "__v" +:+ pretty n +:+ ".flac").

Section WithRuntime.
Context `{Runtime}.

(** The versions 1..k of a stem. *)
Local Abbreviation versions_upto stem k :=
  (list_to_set ((λ n : nat, versioned stem n) <$> seq 1 k) : gset string).

Section Collaborators.
Variable render_text :
  ProjectSettings → TTSOptions → string → Z → option dict → waveform.
Variable load_audio : string → Z → option waveform.
Variable time_stretch : waveform → R → waveform.

Local Abbreviation replace_chunk := (replace_chunk render_text load_audio time_stretch).





End Collaborators.
End WithRuntime.



End Versions.


(** ** Replacement in free timeline mode *)

Module Replacement.
Import Py PyFacts Project Audio Engine.

Section WithRuntime.
Context `{Runtime}.

Section Collaborators.
Variable render_text :
  ProjectSettings → TTSOptions → string → Z → option dict → waveform.
Variable load_audio : string → Z → option waveform.
Variable time_stretch : waveform → R → waveform.


End Collaborators.
End WithRuntime.


End Replacement.

